(** * Shallow embedding of the salt execution module [cachet.py]

    The module binds the Cachet status-page REST API.  We embed the
    schema registry [CACHET_PARAMS_DEFINITION], the argument builder
    [_build_args], the status checks, the request executor [_query] and
    the resource operations the properties below are about.

    Python values are the JSON-like values the module handles; dicts are
    association lists in insertion order (Python 3.7+ dict order).
    Exceptions are an explicit [outcome]; the HTTP transport
    [salt.utils.http.query] is an interaction point of the [io] type, so
    that a program that returns without reaching it provably issues no
    request. *)

From Stdlib Require Import String Ascii List ZArith Bool Lia.
Import ListNotations.
Open Scope Z_scope.
Open Scope string_scope.
Set Warnings "-register-all".

(** ** Python values *)

Inductive pyval : Type :=
| PNone
| PBool (b : bool)
| PInt (z : Z)
| PStr (s : string)
| PList (l : list pyval)
| PDict (d : list (string * pyval))
(** an opaque object: a function, module or logger bound to a name *)
| PObj (name : string).

(** Python truthiness ([bool(v)]). *)
Definition truthy (v : pyval) : bool :=
  match v with
  | PNone => false
  | PBool b => b
  | PInt z => negb (Z.eqb z 0)
  | PStr s => negb (String.eqb s "")
  | PList l => match l with [] => false | _ => true end
  | PDict d => match d with [] => false | _ => true end
  | PObj _ => true
  end.

(** [a or b] *)
Definition py_or (a b : pyval) : pyval := if truthy a then a else b.

(** Python exceptions raised along the paths we model. *)
Inductive exn : Type :=
| KeyError (k : string)
| NameError (n : string)
| UnboundLocalError (n : string)
| TypeError (msg : string)
| ValueError (msg : string)
| AttributeError (msg : string)
| Exception (msg : string).

Inductive outcome (A : Type) : Type :=
| Ok (a : A)
| Raise (e : exn).
Arguments Ok {A} a.
Arguments Raise {A} e.

Definition obind {A B} (o : outcome A) (k : A -> outcome B) : outcome B :=
  match o with Ok a => k a | Raise e => Raise e end.

Notation "'let!' x := o 'in' k" := (obind o (fun x => k))
  (at level 200, x name, o at level 100, k at level 200).

(** ** Dicts as insertion-ordered association lists *)

Section Dict.
Context {V : Type}.

(** [d.get(k)] as an option *)
Fixpoint dict_get (d : list (string * V)) (k : string) : option V :=
  match d with
  | [] => None
  | (k', v) :: r => if String.eqb k k' then Some v else dict_get r k
  end.

(** [d[k] = v]: overwrite in place, or append a new key *)
Fixpoint dict_set (d : list (string * V)) (k : string) (v : V)
  : list (string * V) :=
  match d with
  | [] => [(k, v)]
  | (k', v') :: r =>
      if String.eqb k k' then (k', v) :: r else (k', v') :: dict_set r k v
  end.

(** [k in d] *)
Definition dict_mem (d : list (string * V)) (k : string) : bool :=
  match dict_get d k with Some _ => true | None => false end.

End Dict.

(** [v[k]] on a value *)
Definition py_getitem (v : pyval) (k : string) : outcome pyval :=
  match v with
  | PDict d => match dict_get d k with Some x => Ok x | None => Raise (KeyError k) end
  | _ => Raise (TypeError "object is not subscriptable by a string")
  end.

(** [v.get(k, dflt)] *)
Definition py_get (v : pyval) (k : string) (dflt : pyval) : outcome pyval :=
  match v with
  | PDict d => match dict_get d k with Some x => Ok x | None => Ok dflt end
  | _ => Raise (AttributeError "object has no attribute 'get'")
  end.

(** [k in v] for a string [k]: dict keys, list elements, substrings. *)
Fixpoint str_contains (fuel : nat) (s k : string) : bool :=
  match fuel with
  | O => false
  | S f =>
      if String.prefix k s then true
      else match s with EmptyString => false | String _ s' => str_contains f s' k end
  end.

Definition py_contains (v : pyval) (k : string) : outcome bool :=
  match v with
  | PDict d => Ok (dict_mem d k)
  | PList l => Ok (existsb (fun x => match x with PStr s => String.eqb s k | _ => false end) l)
  | PStr s => Ok (str_contains (S (String.length s)) s k)
  | _ => Raise (TypeError "argument of type is not iterable")
  end.

(** [v == n] for an integer [n] ([True == 1]). *)
Definition py_eq_int (v : pyval) (n : Z) : bool :=
  match v with
  | PInt z => Z.eqb z n
  | PBool b => Z.eqb (if b then 1 else 0) n
  | _ => false
  end.

(** ** The schema registry [CACHET_PARAMS_DEFINITION] (lines 49-111)

    A field configuration is the dict [{'mandatory': m, 'default': d}];
    [default = None] when the key ['default'] is absent. *)

Record field_config : Type := {
  mandatory : bool;
  default : option pyval
}.

Definition mand : field_config := {| mandatory := true; default := None |}.
Definition mand_d (d : pyval) : field_config := {| mandatory := true; default := Some d |}.
Definition opt : field_config := {| mandatory := false; default := None |}.
Definition opt_d (d : pyval) : field_config := {| mandatory := false; default := Some d |}.

Definition CACHET_PARAMS_DEFINITION
  : list (string * list (string * list (string * field_config))) :=
  [ ("components",
      [ ("add",
          [ ("name", mand);
            ("status", mand);
            ("description", opt_d PNone);
            ("link", opt_d PNone);
            ("order", opt_d (PInt 0));
            ("group_id", opt_d PNone);
            ("enabled", opt_d (PBool true)) ]);
        ("update",
          [ ("name", opt);
            ("status", opt);
            ("link", opt_d PNone);
            ("order", opt_d PNone);
            ("group_id", opt_d PNone) ]) ]);
    ("components.groups",
      [ ("add",
          [ ("name", mand);
            ("order", opt_d (PInt 0)) ]);
        ("update",
          [ ("name", opt_d PNone);
            ("order", opt_d PNone) ]) ]);
    ("incidents",
      [ ("add",
          [ ("name", mand);
            ("message", mand);
            ("status", mand);
            ("visible", mand_d (PInt 1));
            ("component_id", opt_d PNone);
            ("component_status", opt_d PNone);
            ("notify", opt_d (PBool false)) ]);
        ("update",
          [ ("name", opt);
            ("message", opt);
            ("status", opt);
            ("visible", opt_d (PInt 1));
            ("component_id", opt);
            ("notify", opt) ]) ]);
    ("metrics",
      [ ("add",
          [ ("name", mand);
            ("suffix", mand);
            ("description", mand);
            ("default_value", mand_d (PInt 0));
            ("display_chart", opt_d (PInt 1)) ]) ]);
    ("metrics.points",
      [ ("add",
          [ ("value", mand) ]) ]) ].

(** [CACHET_PARAMS_DEFINITION[obj][method]] when both keys exist. *)
Definition schema_of (obj method : string) : option (list (string * field_config)) :=
  match dict_get CACHET_PARAMS_DEFINITION obj with
  | Some ops => dict_get ops method
  | None => None
  end.

(** ** The argument builder [_build_args] (lines 122-149) *)

Definition build_failure (k : string) : pyval :=
  PDict [("res", PBool false); ("message", PStr ("Mandatory params " ++ k ++ " is missing"))].

Definition build_success (args : list (string * pyval)) : pyval :=
  PDict [("res", PBool true); ("data", PDict args)].

(** The [for k, config in ....items()] loop, with [args] threaded. *)
Fixpoint build_loop (items : list (string * field_config))
         (kwargs : list (string * pyval)) (args : list (string * pyval)) : pyval :=
  match items with
  | [] => build_success args
  | (k, config) :: rest =>
      if mandatory config then
        match dict_get kwargs k with
        | None =>
            match default config with
            | Some d => build_loop rest kwargs (dict_set args k d)
            | None => build_failure k
            end
        | Some v => build_loop rest kwargs (dict_set args k v)
        end
      else
        match dict_get kwargs k with
        | Some v => build_loop rest kwargs (dict_set args k v)
        | None =>
            match default config with
            | Some d =>
                if truthy d then build_loop rest kwargs (dict_set args k d)
                else build_loop rest kwargs args
            | None => build_loop rest kwargs args
            end
        end
  end.

Definition _build_args (obj method : string) (kwargs : list (string * pyval))
  : outcome pyval :=
  match dict_get CACHET_PARAMS_DEFINITION obj with
  | None => Raise (Exception (obj ++ " not in CACHET_PARAMS_DEFINITION"))
  | Some ops =>
      match dict_get ops method with
      | None => Raise (Exception (method ++ " not in CACHET_PARAMS_DEFINITION[" ++ obj ++ "]"))
      | Some schema => Ok (build_loop schema kwargs [])
      end
  end.

(** The first keyword of [**kwargs] that is also a named parameter of
    [_build_args(obj, method, **kwargs)], in keyword order. *)
Fixpoint kw_collision (kwargs : list (string * pyval)) : option string :=
  match kwargs with
  | [] => None
  | (k, _) :: r =>
      if String.eqb k "obj" || String.eqb k "method" then Some k else kw_collision r
  end.

(** The call [_build_args(obj, method, **kwargs)] the operations make: a
    keyword [obj] or [method] in [kwargs] binds a parameter a second time,
    and Python raises [TypeError] before the body runs. *)
Definition call_build_args (obj method : string) (kwargs : list (string * pyval))
  : outcome pyval :=
  match kw_collision kwargs with
  | Some k => Raise (TypeError ("_build_args() got multiple values for argument '" ++ k ++ "'"))
  | None => _build_args obj method kwargs
  end.

Example build_args_add_component :
  _build_args "components" "add" [("name", PStr "API"); ("status", PInt 1)]
  = Ok (build_success [("name", PStr "API"); ("status", PInt 1); ("enabled", PBool true)]).
Proof. reflexivity. Qed.

(** ** Integers and their decimal text *)

Definition digit_char (n : N) : ascii := ascii_of_N (48 + n).

Fixpoint N_to_dec_aux (fuel : nat) (n : N) (acc : string) : string :=
  match fuel with
  | O => acc
  | S f =>
      let acc' := String (digit_char (N.modulo n 10)) acc in
      if N.ltb n 10 then acc' else N_to_dec_aux f (N.div n 10) acc'
  end.

(** [str(n)] for a natural number; [N.size_nat n + 1] bounds its digits. *)
Definition N_to_dec (n : N) : string := N_to_dec_aux (S (N.size_nat n)) n "".

(** [str(z)] / ['%s' % z] / ['%d' % z] for a Python int *)
Definition Z_to_dec (z : Z) : string :=
  if Z.ltb z 0 then "-" ++ N_to_dec (Z.abs_N z) else N_to_dec (Z.to_N z).

(** [int(s)] for an ASCII string, base 10: surrounding whitespace is
    stripped, one optional sign, then decimal digits where single
    underscores may separate two digits (CPython's [PyLong_FromString]). *)
Definition is_py_space (c : ascii) : bool :=
  let n := nat_of_ascii c in
  (Nat.leb 9 n && Nat.leb n 13) || (Nat.leb 28 n && Nat.leb n 32).

Definition is_digit (c : ascii) : bool :=
  let n := nat_of_ascii c in Nat.leb 48 n && Nat.leb n 57.

Definition digit_val (c : ascii) : Z := Z.of_nat (nat_of_ascii c - 48)%nat.

Fixpoint drop_spaces (l : list ascii) : list ascii :=
  match l with
  | c :: r => if is_py_space c then drop_spaces r else l
  | [] => []
  end.

Definition py_strip (l : list ascii) : list ascii :=
  rev (drop_spaces (rev (drop_spaces l))).

(** digits after the first one: [( '_'? digit )*] *)
Fixpoint parse_digits (l : list ascii) (acc : Z) : option Z :=
  match l with
  | [] => Some acc
  | c :: r =>
      if is_digit c then parse_digits r (acc * 10 + digit_val c)
      else if Ascii.eqb c "_"%char then
        match r with
        | c' :: r' => if is_digit c' then parse_digits r' (acc * 10 + digit_val c') else None
        | [] => None
        end
      else None
  end.

Definition parse_unsigned (l : list ascii) : option Z :=
  match l with
  | c :: r => if is_digit c then parse_digits r (digit_val c) else None
  | [] => None
  end.

Definition parse_int (s : string) : option Z :=
  match py_strip (list_ascii_of_string s) with
  | c :: r =>
      if Ascii.eqb c "-"%char then option_map Z.opp (parse_unsigned r)
      else if Ascii.eqb c "+"%char then parse_unsigned r
      else parse_unsigned (c :: r)
  | [] => None
  end.

(** [int(v)] (floats are outside the value model) *)
Definition py_int (v : pyval) : outcome Z :=
  match v with
  | PInt z => Ok z
  | PBool b => Ok (if b then 1 else 0)
  | PStr s =>
      match parse_int s with
      | Some z => Ok z
      | None => Raise (ValueError ("invalid literal for int() with base 10: " ++ s))
      end
  | _ => Raise (TypeError "int() argument must be a string or a number")
  end.

(** ['%d' % v] *)
Definition py_fmt_d (v : pyval) : outcome string :=
  match v with
  | PInt z => Ok (Z_to_dec z)
  | PBool b => Ok (if b then "1" else "0")
  | _ => Raise (TypeError "%d format: a number is required")
  end.

(** ** Status checks (lines 151-165) *)

Definition _check_component_status (data : pyval) : outcome unit :=
  let! status := py_int data in
  if Z.ltb status 1 || Z.ltb 4 status then
    Raise (Exception ("Wrong component status " ++ Z_to_dec status ++ ", must be between 1 and 4"))
  else Ok tt.

Definition _check_incident_status (data : pyval) : outcome unit :=
  let! status := py_int data in
  if Z.ltb status 0 || Z.ltb 4 status then
    Raise (Exception ("Wrong incident status " ++ Z_to_dec status ++ ", must be between 0 and 4"))
  else Ok tt.

Example Z_to_dec_ex : Z_to_dec (-120) = "-120" /\ Z_to_dec 0 = "0" /\ Z_to_dec 9 = "9".
Proof. repeat split; reflexivity. Qed.

Example py_int_ex :
  py_int (PStr " -1_0 ") = Ok (-10) /\ py_int (PStr "1__0") = Raise (ValueError "invalid literal for int() with base 10: 1__0")
  /\ py_int (PStr "+7") = Ok 7.
Proof. repeat split; reflexivity. Qed.

(** ** [urljoin] (the [salt.ext.six] alias of [urllib.parse.urljoin])

    CPython 3.11's [urllib.parse] on [str] arguments: [urlsplit],
    [urlparse], [urlunsplit], [urlunparse] and [urljoin].  A Rocq string
    is read as a Python [str] whose characters are code points 0-255.
    [_checknetloc] is the identity there: it only inspects non-ASCII
    netlocs, and no Latin-1 character normalizes (NFKC) to one of
    [/?#@:]. *)

(** *** String helpers *)

(** [c in s] *)
Fixpoint has_char (c : ascii) (s : string) : bool :=
  match s with
  | EmptyString => false
  | String c' r => Ascii.eqb c c' || has_char c r
  end.

(** [s.partition(c)] when [c] occurs: the text before and after its
    first occurrence. *)
Fixpoint break_at (c : ascii) (s : string) : option (string * string) :=
  match s with
  | EmptyString => None
  | String c' r =>
      if Ascii.eqb c c' then Some (EmptyString, r)
      else match break_at c r with
           | Some (a, b) => Some (String c' a, b)
           | None => None
           end
  end.

(** [s.rpartition(c)[2]]: the text after the last [c], or [s]. *)
Fixpoint after_last (c : ascii) (s : string) : string :=
  match s with
  | EmptyString => EmptyString
  | String c' r =>
      if has_char c r then after_last c r
      else if Ascii.eqb c c' then r else s
  end.

Fixpoint py_split_aux (c : ascii) (l : list ascii) (cur : list ascii) : list string :=
  match l with
  | [] => [string_of_list_ascii (rev cur)]
  | c' :: r =>
      if Ascii.eqb c' c then string_of_list_ascii (rev cur) :: py_split_aux c r []
      else py_split_aux c r (c' :: cur)
  end.

(** [s.split(c)] *)
Definition py_split (c : ascii) (s : string) : list string :=
  py_split_aux c (list_ascii_of_string s) [].

Definition split_slash (s : string) : list string := py_split "/"%char s.

Fixpoint all_chars (p : ascii -> bool) (s : string) : bool :=
  match s with
  | EmptyString => true
  | String c r => p c && all_chars p r
  end.

Fixpoint filter_chars (p : ascii -> bool) (s : string) : string :=
  match s with
  | EmptyString => EmptyString
  | String c r => if p c then String c (filter_chars p r) else filter_chars p r
  end.

Definition in_range (lo hi : nat) (c : ascii) : bool :=
  Nat.leb lo (nat_of_ascii c) && Nat.leb (nat_of_ascii c) hi.

Definition is_ascii_alpha (c : ascii) : bool := in_range 65 90 c || in_range 97 122 c.
Definition is_ascii_digit (c : ascii) : bool := in_range 48 57 c.
Definition is_hex_digit (c : ascii) : bool :=
  is_ascii_digit c || in_range 65 70 c || in_range 97 102 c.

(** [scheme_chars]: ASCII letters, digits and [+-.] *)
Definition scheme_char (c : ascii) : bool :=
  is_ascii_alpha c || is_ascii_digit c ||
  Ascii.eqb c "+"%char || Ascii.eqb c "-"%char || Ascii.eqb c "."%char.

(** [str.lower()] on the scheme characters *)
Definition lower_ascii (c : ascii) : ascii :=
  if in_range 65 90 c then ascii_of_nat (nat_of_ascii c + 32) else c.

Fixpoint lower (s : string) : string :=
  match s with
  | EmptyString => EmptyString
  | String c r => String (lower_ascii c) (lower r)
  end.

(** [_WHATWG_C0_CONTROL_OR_SPACE]: code points 0 to 32 *)
Definition c0_or_space (c : ascii) : bool := Nat.leb (nat_of_ascii c) 32.

Fixpoint lstrip_c0 (s : string) : string :=
  match s with
  | EmptyString => EmptyString
  | String c r => if c0_or_space c then lstrip_c0 r else s
  end.

Fixpoint rev_string (s : string) : string :=
  match s with
  | EmptyString => EmptyString
  | String c r => rev_string r ++ String c EmptyString
  end.

Definition strip_c0 (s : string) : string := rev_string (lstrip_c0 (rev_string (lstrip_c0 s))).

(** removal of [_UNSAFE_URL_BYTES_TO_REMOVE] = tab, CR, LF *)
Definition remove_unsafe (s : string) : string :=
  filter_chars (fun c => negb (Ascii.eqb c (ascii_of_nat 9) || Ascii.eqb c (ascii_of_nat 13)
                               || Ascii.eqb c (ascii_of_nat 10))) s.

Definition str_mem (s : string) (l : list string) : bool := existsb (String.eqb s) l.

Definition uses_relative : list string :=
  [""; "ftp"; "http"; "gopher"; "nntp"; "imap"; "wais"; "file"; "https"; "shttp"; "mms";
   "prospero"; "rtsp"; "rtspu"; "sftp"; "svn"; "svn+ssh"; "ws"; "wss"].

Definition uses_netloc : list string :=
  [""; "ftp"; "http"; "gopher"; "nntp"; "telnet"; "imap"; "wais"; "file"; "mms"; "https";
   "shttp"; "snews"; "prospero"; "rtsp"; "rtspu"; "rsync"; "svn"; "svn+ssh"; "sftp"; "nfs";
   "git"; "git+ssh"; "ws"; "wss"].

Definition uses_params : list string :=
  [""; "ftp"; "hdl"; "prospero"; "http"; "imap"; "https"; "shttp"; "rtsp"; "rtspu"; "sip";
   "sips"; "mms"; "sftp"; "tel"].

(** *** [ipaddress.ip_address] on a string, as a validity test *)

(** [_parse_octet]: ASCII digits, at most three, no leading zero,
    at most 255 *)
Definition valid_octet (s : string) : bool :=
  if String.eqb s "" then false
  else if negb (all_chars is_ascii_digit s) then false
  else if Nat.ltb 3 (String.length s) then false
  else if negb (String.eqb s "0") && String.prefix "0" s then false
  else Z.leb (fold_left (fun n c => n * 10 + (Z.of_nat (nat_of_ascii c) - 48))
                        (list_ascii_of_string s) 0) 255.

(** [IPv4Address(s)] succeeds *)
Definition ipv4_ok (s : string) : bool :=
  negb (has_char "/"%char s) && negb (String.eqb s "") &&
  (let os := py_split "."%char s in
   Nat.eqb (List.length os) 4 && forallb valid_octet os).

(** [_parse_hextet]: one to four hex digits *)
Definition hextet_ok (h : string) : bool :=
  all_chars is_hex_digit h && Nat.leb 1 (String.length h) && Nat.leb (String.length h) 4.

(** the indices [1 .. n-2] of the empty parts *)
Definition inner_empties (parts : list string) : list nat :=
  filter (fun i => String.eqb (nth i parts "") "")
         (seq 1 (List.length parts - 2)).

(** [IPv6Address._ip_int_from_string] succeeds *)
Definition ipv6_addr_ok (s : string) : bool :=
  negb (String.eqb s "") &&
  (let parts := py_split ":"%char s in
   Nat.leb 3 (List.length parts) &&
   (let '(ok4, parts) :=
      if has_char "."%char (last parts "")
      then (ipv4_ok (last parts ""), app (removelast parts) ["0"; "0"])
      else (true, parts) in
    let n := List.length parts in
    ok4 && Nat.leb n 9 &&
    match inner_empties parts with
    | [] =>
        Nat.eqb n 8 && forallb hextet_ok parts
    | [k] =>
        let hi := k in
        let lo := (n - k - 1)%nat in
        let '(ok_hi, hi) :=
          if String.eqb (hd "" parts) "" then (Nat.eqb (hi - 1) 0, (hi - 1)%nat) else (true, hi) in
        let '(ok_lo, lo) :=
          if String.eqb (last parts "") "" then (Nat.eqb (lo - 1) 0, (lo - 1)%nat) else (true, lo) in
        ok_hi && ok_lo && Nat.ltb (hi + lo) 8 &&
        forallb hextet_ok (firstn hi parts) && forallb hextet_ok (skipn (n - lo) parts)
    | _ => false
    end)).

(** [IPv6Address(s)] succeeds: no [/], an optional non-empty scope id
    after [%] *)
Definition ipv6_ok (s : string) : bool :=
  negb (has_char "/"%char s) &&
  match break_at "%"%char s with
  | None => ipv6_addr_ok s
  | Some (addr, scope) =>
      negb (String.eqb scope "") && negb (has_char "%"%char scope) && ipv6_addr_ok addr
  end.

Fixpoint drop_hex (s : string) : string * nat :=
  match s with
  | String c r => if is_hex_digit c then let '(t, n) := drop_hex r in (t, S n) else (s, 0%nat)
  | EmptyString => (s, 0%nat)
  end.

(** [re.match(r"\Av[a-fA-F0-9]+\..+\Z", h)] *)
Definition ipvfuture_ok (h : string) : bool :=
  match h with
  | String "v"%char r =>
      let '(t, n) := drop_hex r in
      Nat.ltb 0 n &&
      match t with
      | String "."%char rest =>
          negb (String.eqb rest "") && negb (has_char (ascii_of_nat 10) rest)
      | _ => false
      end
  | _ => false
  end.

Definition _check_bracketed_host (hostname : string) : outcome unit :=
  if String.prefix "v" hostname then
    if ipvfuture_ok hostname then Ok tt
    else Raise (ValueError "IPvFuture address is invalid")
  else if ipv4_ok hostname then Raise (ValueError "An IPv4 address cannot be in brackets")
  else if ipv6_ok hostname then Ok tt
  else Raise (ValueError ("'" ++ hostname ++ "' does not appear to be an IPv4 or IPv6 address")).

Definition _check_bracketed_netloc (netloc : string) : outcome unit :=
  let hostname_and_port := after_last "@"%char netloc in
  match break_at "["%char hostname_and_port with
  | Some (before_bracket, bracketed) =>
      if negb (String.eqb before_bracket "") then Raise (ValueError "Invalid IPv6 URL")
      else
        let '(hostname, port) :=
          match break_at "]"%char bracketed with
          | Some (a, b) => (a, b)
          | None => (bracketed, "")
          end in
        if negb (String.eqb port "") && negb (String.prefix ":" port)
        then Raise (ValueError "Invalid IPv6 URL")
        else _check_bracketed_host hostname
  | None =>
      let hostname :=
        match break_at ":"%char hostname_and_port with
        | Some (a, _) => a
        | None => hostname_and_port
        end in
      _check_bracketed_host hostname
  end.

(** *** Splitting and joining *)

(** [_splitnetloc(url, 2)] on the text after [//]: up to the first of
    [/?#]. *)
Fixpoint _splitnetloc (s : string) : string * string :=
  match s with
  | EmptyString => (EmptyString, EmptyString)
  | String c r =>
      if Ascii.eqb c "/"%char || Ascii.eqb c "?"%char || Ascii.eqb c "#"%char
      then (EmptyString, s)
      else let '(a, b) := _splitnetloc r in (String c a, b)
  end.

Record SplitResult : Type := {
  sr_scheme : string; sr_netloc : string; sr_path : string;
  sr_query : string; sr_fragment : string }.

Record ParseResult : Type := {
  pr_scheme : string; pr_netloc : string; pr_path : string; pr_params : string;
  pr_query : string; pr_fragment : string }.

Definition urlsplit (url scheme : string) (allow_fragments : bool) : outcome SplitResult :=
  let url := lstrip_c0 url in
  let scheme := strip_c0 scheme in
  let url := remove_unsafe url in
  let scheme := remove_unsafe scheme in
  let '(scheme, url) :=
    match break_at ":"%char url with
    | Some (pre, post) =>
        match pre with
        | String c0 _ =>
            if is_ascii_alpha c0 && all_chars scheme_char pre then (lower pre, post)
            else (scheme, url)
        | EmptyString => (scheme, url)
        end
    | None => (scheme, url)
    end in
  let! nu :=
    if String.prefix "//" url then
      let '(netloc, url) := _splitnetloc (substring 2 (String.length url - 2) url) in
      if (has_char "["%char netloc && negb (has_char "]"%char netloc)) ||
         (has_char "]"%char netloc && negb (has_char "["%char netloc))
      then Raise (ValueError "Invalid IPv6 URL")
      else if has_char "["%char netloc && has_char "]"%char netloc
      then let! _u := _check_bracketed_netloc netloc in Ok (netloc, url)
      else Ok (netloc, url)
    else Ok ("", url) in
  let '(netloc, url) := nu in
  let '(url, fragment) :=
    if allow_fragments then
      match break_at "#"%char url with Some (a, b) => (a, b) | None => (url, "") end
    else (url, "") in
  let '(url, query) :=
    match break_at "?"%char url with Some (a, b) => (a, b) | None => (url, "") end in
  Ok {| sr_scheme := scheme; sr_netloc := netloc; sr_path := url;
        sr_query := query; sr_fragment := fragment |}.

Definition _splitparams (url : string) : string * string :=
  if has_char "/"%char url then
    let tail := after_last "/"%char url in
    match break_at ";"%char tail with
    | Some (a, b) => (substring 0 (String.length url - String.length tail) url ++ a, b)
    | None => (url, "")
    end
  else
    match break_at ";"%char url with Some (a, b) => (a, b) | None => (url, "") end.

Definition urlparse (url scheme : string) (allow_fragments : bool) : outcome ParseResult :=
  let! sr := urlsplit url scheme allow_fragments in
  let '(path, params) :=
    if str_mem (sr_scheme sr) uses_params && has_char ";"%char (sr_path sr)
    then _splitparams (sr_path sr) else (sr_path sr, "") in
  Ok {| pr_scheme := sr_scheme sr; pr_netloc := sr_netloc sr; pr_path := path;
        pr_params := params; pr_query := sr_query sr; pr_fragment := sr_fragment sr |}.

Definition urlunsplit (scheme netloc url query fragment : string) : string :=
  let url :=
    if negb (String.eqb netloc "") ||
       (negb (String.eqb scheme "") && str_mem scheme uses_netloc && negb (String.prefix "//" url))
    then "//" ++ netloc ++
         (if negb (String.eqb url "") && negb (String.prefix "/" url) then "/" ++ url else url)
    else url in
  let url := if String.eqb scheme "" then url else scheme ++ ":" ++ url in
  let url := if String.eqb query "" then url else url ++ "?" ++ query in
  if String.eqb fragment "" then url else url ++ "#" ++ fragment.

Definition urlunparse (scheme netloc url params query fragment : string) : string :=
  let url := if String.eqb params "" then url else url ++ ";" ++ params in
  urlunsplit scheme netloc url query fragment.

(** [segments[1:-1] = filter(None, segments[1:-1])] *)
Definition filter_inner (segs : list string) : list string :=
  match segs with
  | [] => []
  | [x] => [x]
  | x :: rest =>
      x :: app (filter (fun s => negb (String.eqb s "")) (removelast rest)) [last rest ""]
  end.

(** the dot-segment loop; [acc] is [resolved_path] reversed *)
Fixpoint resolve_segments (segs : list string) (acc : list string) : list string :=
  match segs with
  | [] => rev acc
  | s :: r =>
      if String.eqb s ".." then resolve_segments r (tl acc)
      else if String.eqb s "." then resolve_segments r acc
      else resolve_segments r (s :: acc)
  end.

Definition urljoin (base url : string) (allow_fragments : bool) : outcome string :=
  if String.eqb base "" then Ok url
  else if String.eqb url "" then Ok base
  else
    let! b := urlparse base "" allow_fragments in
    let! u := urlparse url (pr_scheme b) allow_fragments in
    let scheme := pr_scheme u in
    if negb (String.eqb scheme (pr_scheme b)) || negb (str_mem scheme uses_relative)
    then Ok url
    else if str_mem scheme uses_netloc && negb (String.eqb (pr_netloc u) "")
    then Ok (urlunparse scheme (pr_netloc u) (pr_path u) (pr_params u) (pr_query u)
                       (pr_fragment u))
    else
      let netloc := if str_mem scheme uses_netloc then pr_netloc b else pr_netloc u in
      if String.eqb (pr_path u) "" && String.eqb (pr_params u) "" then
        Ok (urlunparse scheme netloc (pr_path b) (pr_params b)
                       (if String.eqb (pr_query u) "" then pr_query b else pr_query u)
                       (pr_fragment u))
      else
        let base_parts := split_slash (pr_path b) in
        let base_parts :=
          if String.eqb (last base_parts "") "" then base_parts else removelast base_parts in
        let segments :=
          if String.prefix "/" (pr_path u) then split_slash (pr_path u)
          else filter_inner (app base_parts (split_slash (pr_path u))) in
        let resolved := resolve_segments segments [] in
        let resolved :=
          if String.eqb (last segments "") "." || String.eqb (last segments "") ".."
          then app resolved [""] else resolved in
        let path := String.concat "/" resolved in
        let path := if String.eqb path "" then "/" else path in
        Ok (urlunparse scheme netloc path (pr_params u) (pr_query u) (pr_fragment u)).

Example urljoin_ex :
  (let! b := urljoin "https://status.example.com" "/api/v1/" true in
   urljoin b "components" false) = Ok "https://status.example.com/api/v1/components"
  /\ (let! b := urljoin "HTTPS://status.example.com/cachet/" "/api/v1/" true in
      urljoin b "components/3" false) = Ok "https://status.example.com/api/v1/components/3"
  /\ urljoin "foo://host/x" "/api/v1/" true = Ok "/api/v1/"
  /\ urljoin "https://host?x=1" "/api/v1/" true = Ok "https://host/api/v1/".
Proof. repeat split; reflexivity. Qed.

(** ** Collaborators: configuration and the HTTP transport *)

(** [__salt__['config.get']]: a key that is not configured reads as
    salt's default, the empty string. *)
Definition config : Type := string -> pyval.

(** The arguments of one [salt.utils.http.query] call. *)
Record request : Type := {
  req_url : string;
  req_method : string;
  req_params : pyval;
  req_data : pyval;
  req_headers : list (string * pyval)
}.

(** A computation that either finishes, or issues an HTTP request and
    continues with the transport's result dict. *)
Inductive io (A : Type) : Type :=
| Ret (o : outcome A)
| Http (r : request) (k : pyval -> io A).
Arguments Ret {A} o.
Arguments Http {A} r k.

Definition ilift {A B} (o : outcome A) (k : A -> io B) : io B :=
  match o with Ok a => k a | Raise e => Ret (Raise e) end.

Notation "'let?' x := o 'in' k" := (ilift o (fun x => k))
  (at level 200, x name, o at level 100, k at level 200).

(** Runs a computation against a transport; returns the requests issued,
    in order, and the final outcome. *)
Fixpoint run {A} (transport : request -> pyval) (m : io A) : list request * outcome A :=
  match m with
  | Ret o => ([], o)
  | Http r k => let '(rs, o) := run transport (k (transport r)) in (r :: rs, o)
  end.

(** ** The request executor [_query] (lines 168-256) *)

Definition ret_dict (message res : pyval) : pyval :=
  PDict [("message", message); ("res", res)].

Definition no_api_key : pyval := ret_dict (PStr "No Cachet api key found.") (PBool false).

(** [if not v: v = config.get(k1) or config.get(k2); if not v: return ret] *)
Definition with_setting (cfg : config) (v : pyval) (k1 k2 : string)
           (k : pyval -> io pyval) : io pyval :=
  if truthy v then k v
  else
    let v := py_or (cfg k1) (cfg k2) in
    if truthy v then k v else Ret (Ok no_api_key).

(** Lines 236-256: the interpretation of the transport's result dict.
    The [log.debug] calls have no effect on the result. *)
Definition _query_response (result : pyval) : outcome pyval :=
  let! status := py_get result "status" PNone in
  if py_eq_int status 200 then
    let! _result := py_getitem result "dict" in
    let! has_error := py_contains _result "error" in
    if has_error then
      let! e := py_getitem _result "error" in Ok (ret_dict e (PBool false))
    else
      let! d := py_get _result "data" PNone in Ok (ret_dict d (PBool true))
  else if py_eq_int status 204 then Ok (PBool true)
  else
    let! has_error := py_contains result "error" in
    if has_error then
      let! e := py_getitem result "error" in Ok (ret_dict e (PBool false))
    else
      (* [ret['message'] = _result.get(response)]: the local [_result] is
         only assigned in the status-200 branch *)
      Raise (UnboundLocalError "_result").

Definition _query (cfg : config) (function : string) (api_url api_token : pyval)
           (auth : bool) (args : pyval) (method : string)
           (header_dict : option (list (string * pyval))) (data : pyval) : io pyval :=
  with_setting cfg api_url "cachet.api_url" "cachet:api_url" (fun api_url =>
  (if auth then with_setting cfg api_token "cachet.api_token" "cachet:api_token"
   else fun k => k api_token) (fun api_token =>
  let? api_url_s :=
    match api_url with
    | PStr s => Ok s
    | _ => Raise (TypeError "Cannot mix str and non-str arguments")
    end in
  let? base_url := urljoin api_url_s "/api/v1/" true in
  let? url := urljoin base_url function false in
  let query_params := match args with PDict _ => args | _ => PDict [] end in
  let header_dict := match header_dict with Some h => h | None => [] end in
  let header_dict :=
    if auth then
      if dict_mem header_dict "X-Cachet-Token" then header_dict
      else dict_set header_dict "X-Cachet-Token" api_token
    else header_dict in
  Http {| req_url := url; req_method := method; req_params := query_params;
          req_data := data; req_headers := header_dict |}
       (fun result => Ret (_query_response result)))).

(** ** Module globals and name resolution *)

Definition field_config_val (c : field_config) : pyval :=
  PDict (app [("mandatory", PBool (mandatory c))]
             (match default c with Some d => [("default", d)] | None => [] end)).

Definition registry_val : pyval :=
  PDict (map (fun '(obj, ops) =>
    (obj, PDict (map (fun '(m, sch) =>
      (m, PDict (map (fun '(k, c) => (k, field_config_val c)) sch))) ops)))
    CACHET_PARAMS_DEFINITION).

(** The module's namespace: its imports and top-level definitions, and
    the dunders the salt loader injects. *)
Definition cachet_globals : list (string * pyval) :=
  [ ("__name__", PStr "salt.loaded.ext.module.cachet");
    ("absolute_import", PObj "__future__.absolute_import");
    ("logging", PObj "logging");
    ("_urljoin", PObj "urllib.parse.urljoin");
    ("_urlencode", PObj "urllib.parse.urlencode");
    ("range", PObj "range");
    ("salt", PObj "salt");
    ("log", PObj "logging.Logger");
    ("__virtualname__", PStr "cachet");
    ("CACHET_PARAMS_DEFINITION", registry_val);
    ("__virtual__", PObj "__virtual__");
    ("_build_args", PObj "_build_args");
    ("_check_component_status", PObj "_check_component_status");
    ("_check_incident_status", PObj "_check_incident_status");
    ("_query", PObj "_query");
    ("ping", PObj "ping");
    ("get_components", PObj "get_components");
    ("add_component", PObj "add_component");
    ("update_component", PObj "update_component");
    ("delete_component", PObj "delete_component");
    ("get_components_groups", PObj "get_components_groups");
    ("add_component_group", PObj "add_component_group");
    ("update_component_group", PObj "update_component_group");
    ("delete_component_group", PObj "delete_component_group");
    ("get_incidents", PObj "get_incidents");
    ("add_incident", PObj "add_incident");
    ("update_incident", PObj "update_incident");
    ("delete_incident", PObj "delete_incident");
    ("get_metrics", PObj "get_metrics");
    ("add_metric", PObj "add_metric");
    ("delete_metric", PObj "delete_metric");
    ("get_metrics_points", PObj "get_metrics_points");
    ("add_metric_point", PObj "add_metric_point");
    ("delete_metric_point", PObj "delete_metric_point");
    ("__salt__", PObj "__salt__");
    ("__opts__", PObj "__opts__");
    ("__grains__", PObj "__grains__");
    ("__pillar__", PObj "__pillar__");
    ("__context__", PObj "__context__") ].

(** Names of the [builtins] module. *)
Definition builtin_names : list string :=
  [ "abs"; "all"; "any"; "bool"; "dict"; "enumerate"; "Exception"; "filter";
    "float"; "getattr"; "hasattr"; "int"; "isinstance"; "KeyError"; "len";
    "list"; "map"; "max"; "min"; "None"; "object"; "print"; "range"; "repr";
    "set"; "sorted"; "str"; "sum"; "True"; "False"; "tuple"; "type";
    "TypeError"; "ValueError"; "zip" ].

(** [LOAD_GLOBAL n]: module namespace, then builtins. *)
Definition load_global (n : string) : outcome pyval :=
  match dict_get cachet_globals n with
  | Some v => Ok v
  | None =>
      if existsb (String.eqb n) builtin_names then Ok (PObj n)
      else Raise (NameError ("name '" ++ n ++ "' is not defined"))
  end.

(** ** Resource operations *)

(** [get_components] (lines 276-301) *)
Definition get_components (cfg : config) (id api_url api_token : pyval) : io pyval :=
  if truthy id then
    let? d := py_fmt_d id in
    _query cfg ("components/" ++ d) api_url api_token false PNone "GET" None PNone
  else
    _query cfg "components" api_url api_token false PNone "GET" None PNone.

(** [add_component] (lines 303-340) *)
Definition add_component (cfg : config) (api_url api_token : pyval)
           (kwargs : list (string * pyval)) : io pyval :=
  let? test := call_build_args "components" "add" kwargs in
  let? res := py_getitem test "res" in
  if negb (truthy res) then Ret (Ok test) else
  let? args := py_getitem test "data" in
  let? status := py_getitem args "status" in
  let? _u := _check_component_status status in
  _query cfg "components" api_url api_token true args "POST" None PNone.

(** [update_component] (lines 342-376) *)
Definition update_component (cfg : config) (id api_url api_token : pyval)
           (kwargs : list (string * pyval)) : io pyval :=
  let? test := call_build_args "components" "update" kwargs in
  let? res := py_getitem test "res" in
  if negb (truthy res) then Ret (Ok test) else
  let? args := py_getitem test "data" in
  let? status := py_getitem args "status" in
  let? _u := (if truthy status then
                let! status' := py_getitem args "status" in _check_component_status status'
              else Ok tt) in
  let? d := py_fmt_d id in
  _query cfg ("components/" ++ d) api_url api_token true args "PUT" None PNone.

(** [update_incident] (lines 576-611) *)
Definition update_incident (cfg : config) (id api_url api_token : pyval)
           (kwargs : list (string * pyval)) : io pyval :=
  let? test := call_build_args "incidents" "update" kwargs in
  let? res := py_getitem test "res" in
  if negb (truthy res) then Ret (Ok test) else
  let? args := py_getitem test "data" in
  let? status := py_getitem args "status" in
  let? _u := (if truthy status then
                let! status' := py_getitem args "status" in _check_incident_status status'
              else Ok tt) in
  let? d := py_fmt_d id in
  _query cfg ("incidents/" ++ d) api_url api_token true args "PUT" None PNone.

(** [delete_metric_point] (lines 775-796).  [args] is not a local of the
    function (it is never assigned there), so [args=args] loads a global. *)
Definition delete_metric_point (cfg : config) (metric_id id api_url api_token : pyval)
  : io pyval :=
  let? m := py_fmt_d metric_id in
  let? i := py_fmt_d id in
  let function := "metrics/" ++ m ++ "/points/" ++ i in
  let? args := load_global "args" in
  _query cfg function api_url api_token true args "DELETE" None PNone.

(** [ping] (lines 259-274) *)
Definition ping (cfg : config) (api_url : pyval) : io pyval :=
  _query cfg "ping" api_url PNone false PNone "GET" None PNone.

(** [delete_component] (lines 378-398) *)
Definition delete_component (cfg : config) (id api_url api_token : pyval) : io pyval :=
  let? d := py_fmt_d id in
  _query cfg ("components/" ++ d) api_url api_token true PNone "DELETE" None PNone.

(** [get_components_groups] (lines 400-425) *)
Definition get_components_groups (cfg : config) (id api_url api_token : pyval) : io pyval :=
  if truthy id then
    let? d := py_fmt_d id in
    _query cfg ("components/groups/" ++ d) api_url api_token false PNone "GET" None PNone
  else
    _query cfg "components/groups" api_url api_token false PNone "GET" None PNone.


(** [update_component_group] (lines 456-484) *)
Definition update_component_group (cfg : config) (id api_url api_token : pyval)
           (kwargs : list (string * pyval)) : io pyval :=
  let? test := call_build_args "components.groups" "update" kwargs in
  let? res := py_getitem test "res" in
  if negb (truthy res) then Ret (Ok test) else
  let? args := py_getitem test "data" in
  let? d := py_fmt_d id in
  _query cfg ("components/groups/" ++ d) api_url api_token true args "PUT" None PNone.

(** [delete_component_group] (lines 486-506) *)
Definition delete_component_group (cfg : config) (id api_url api_token : pyval) : io pyval :=
  let? d := py_fmt_d id in
  _query cfg ("components/groups/" ++ d) api_url api_token true PNone "DELETE" None PNone.

(** [get_incidents] (lines 508-533) *)
Definition get_incidents (cfg : config) (id api_url api_token : pyval) : io pyval :=
  if truthy id then
    let? d := py_fmt_d id in
    _query cfg ("incidents/" ++ d) api_url api_token false PNone "GET" None PNone
  else
    _query cfg "incidents" api_url api_token false PNone "GET" None PNone.

(** [add_incident] (lines 535-574) *)
Definition add_incident (cfg : config) (api_url api_token : pyval)
           (kwargs : list (string * pyval)) : io pyval :=
  let? test := call_build_args "incidents" "add" kwargs in
  let? res := py_getitem test "res" in
  if negb (truthy res) then Ret (Ok test) else
  let? args := py_getitem test "data" in
  let? status := py_getitem args "status" in
  let? _u := _check_incident_status status in
  let? has_cs := py_contains args "component_status" in
  let? _v := (if has_cs then
                let! cs := py_getitem args "component_status" in
                if truthy cs then
                  let! cs' := py_getitem args "component_status" in
                  _check_component_status cs'
                else Ok tt
              else Ok tt) in
  _query cfg "incidents" api_url api_token true args "POST" None PNone.

(** [delete_incident] (lines 613-633) *)
Definition delete_incident (cfg : config) (id api_url api_token : pyval) : io pyval :=
  let? d := py_fmt_d id in
  _query cfg ("incidents/" ++ d) api_url api_token true PNone "DELETE" None PNone.

(** [get_metrics] (lines 635-660) *)
Definition get_metrics (cfg : config) (id api_url api_token : pyval) : io pyval :=
  if truthy id then
    let? d := py_fmt_d id in
    _query cfg ("metrics/" ++ d) api_url api_token false PNone "GET" None PNone
  else
    _query cfg "metrics" api_url api_token false PNone "GET" None PNone.


(** [delete_metric] (lines 694-714) *)
Definition delete_metric (cfg : config) (id api_url api_token : pyval) : io pyval :=
  let? d := py_fmt_d id in
  _query cfg ("metrics/" ++ d) api_url api_token true PNone "DELETE" None PNone.

(** [get_metrics_points] (lines 717-743).  [metric_ic] is not a local
    of the function, so building the tuple [(metric_ic, id)] loads a
    global before any formatting. *)
Definition get_metrics_points (cfg : config) (metric_id id api_url api_token : pyval)
  : io pyval :=
  if truthy id then
    let? mi := load_global "metric_ic" in
    let? m := py_fmt_d mi in
    let? i := py_fmt_d id in
    _query cfg ("metrics/" ++ m ++ "/points/" ++ i) api_url api_token false PNone "GET" None PNone
  else
    let? m := py_fmt_d metric_id in
    _query cfg ("metrics/" ++ m ++ "/points") api_url api_token false PNone "GET" None PNone.

(** [add_metric_point] (lines 745-773) *)
Definition add_metric_point (cfg : config) (metric_id api_url api_token : pyval)
           (kwargs : list (string * pyval)) : io pyval :=
  let? test := call_build_args "metrics.points" "add" kwargs in
  let? res := py_getitem test "res" in
  if negb (truthy res) then Ret (Ok test) else
  let? args := py_getitem test "data" in
  let? m := py_fmt_d metric_id in
  _query cfg ("metrics/" ++ m ++ "/points") api_url api_token true args "POST" None PNone.

(** * Properties *)

(** ** Dict lemmas *)

Lemma dict_get_set {V} (d : list (string * V)) k v k' :
  dict_get (dict_set d k v) k' = if String.eqb k' k then Some v else dict_get d k'.
Proof.
  induction d as [|[k0 v0] r IH]; simpl.
  - destruct (String.eqb k' k); reflexivity.
  - destruct (String.eqb_spec k k0) as [->|Hne]; simpl.
    + destruct (String.eqb k' k0); reflexivity.
    + rewrite IH. destruct (String.eqb_spec k' k) as [Heq|]; [|reflexivity].
      subst k'. apply String.eqb_neq in Hne. rewrite Hne. reflexivity.
Qed.

Lemma dict_keys_set {V} (d : list (string * V)) k v k' :
  In k' (map fst (dict_set d k v)) <-> k' = k \/ In k' (map fst d).
Proof.
  induction d as [|[k0 v0] r IH]; simpl.
  - split; intros [H|[]]; left; congruence.
  - destruct (String.eqb_spec k k0) as [->|]; simpl; rewrite ?IH; intuition.
Qed.

Lemma dict_get_none {V} (d : list (string * V)) k :
  dict_get d k = None <-> ~ In k (map fst d).
Proof.
  induction d as [|[k0 v0] r IH]; simpl.
  - tauto.
  - destruct (String.eqb_spec k k0) as [->|Hne].
    + split; [discriminate|]. intros H. exfalso. apply H. left. reflexivity.
    + rewrite IH. intuition.
Qed.

Lemma nodup_keys_in {V} (d : list (string * V)) k v v' :
  NoDup (map fst d) -> In (k, v) d -> In (k, v') d -> v = v'.
Proof.
  induction d as [|[k0 v0] r IH]; simpl; intros Hnd H1 H2; [contradiction|].
  inversion Hnd as [|? ? Hnot Hnd']; subst.
  destruct H1 as [H1|H1], H2 as [H2|H2].
  - inversion H1; inversion H2; subst. reflexivity.
  - inversion H1; subst. exfalso. apply Hnot. apply (in_map fst) in H2. exact H2.
  - inversion H2; subst. exfalso. apply Hnot. apply (in_map fst) in H1. exact H1.
  - eauto.
Qed.

(** ** One iteration of the builder loop *)

Section BuildLoop.
Variable kwargs : list (string * pyval).

(** The value the iteration for field [k] stores into [args], if any. *)
Definition step_value (k : string) (c : field_config) : option pyval :=
  match dict_get kwargs k with
  | Some v => Some v
  | None =>
      match default c with
      | Some d => if mandatory c || truthy d then Some d else None
      | None => None
      end
  end.

Definition opt_set (args : list (string * pyval)) (k : string) (o : option pyval) :=
  match o with Some v => dict_set args k v | None => args end.

(** A field whose absence makes the builder fail. *)
Definition missing (k : string) (c : field_config) : Prop :=
  mandatory c = true /\ default c = None /\ dict_get kwargs k = None.

Lemma missing_dec k c : {missing k c} + {~ missing k c}.
Proof.
  unfold missing.
  destruct (mandatory c), (default c), (dict_get kwargs k); intuition discriminate.
Qed.

Lemma build_loop_step k c rest args :
  ~ missing k c ->
  build_loop ((k, c) :: rest) kwargs args = build_loop rest kwargs (opt_set args k (step_value k c)).
Proof.
  unfold missing, step_value; intros Hm; simpl.
  destruct (mandatory c), (dict_get kwargs k), (default c) as [d|];
    try destruct (truthy d); simpl; intuition.
Qed.

Lemma build_loop_ok : forall items args,
  (forall k c, In (k, c) items -> ~ missing k c) ->
  exists res,
    build_loop items kwargs args = build_success res /\
    (forall k, In k (map fst res) <->
       In k (map fst args) \/ exists c v, In (k, c) items /\ step_value k c = Some v) /\
    (forall k v, dict_get res k = Some v ->
       dict_get args k = Some v \/ exists c, In (k, c) items /\ step_value k c = Some v).
Proof.
  induction items as [|[k c] rest IH]; intros args Hok.
  - exists args. repeat split; simpl; firstorder.
  - rewrite build_loop_step by (apply Hok; left; reflexivity).
    destruct (IH (opt_set args k (step_value k c))) as (res & Heq & Hkeys & Hvals).
    { intros k' c' Hin. apply Hok. right. exact Hin. }
    exists res. split; [exact Heq|split].
    + intros k'. rewrite Hkeys. unfold opt_set.
      destruct (step_value k c) as [v|] eqn:Hs.
      * rewrite dict_keys_set. split.
        -- intros [[->|H]|(c' & v' & Hin & Hs')]; [right; exists c, v; split; [left|]; auto
           |left; exact H|right; exists c', v'; split; [right|]; auto].
        -- intros [H|(c' & v' & [Hin|Hin] & Hs')]; [left; right; exact H| |].
           ++ inversion Hin; subst. left; left; reflexivity.
           ++ right. exists c', v'. auto.
      * split.
        -- intros [H|(c' & v' & Hin & Hs')]; [left; exact H|right; exists c', v'; split; [right|]; auto].
        -- intros [H|(c' & v' & [Hin|Hin] & Hs')]; [left; exact H| |].
           ++ inversion Hin; subst. congruence.
           ++ right. exists c', v'. auto.
    + intros k' v Hg. destruct (Hvals k' v Hg) as [H|(c' & Hin & Hs')].
      * unfold opt_set in H. destruct (step_value k c) as [w|] eqn:Hs.
        -- rewrite dict_get_set in H. destruct (String.eqb_spec k' k) as [->|].
           ++ inversion H; subst. right. exists c. split; [left; reflexivity|exact Hs].
           ++ left. exact H.
        -- left. exact H.
      * right. exists c'. split; [right; exact Hin|exact Hs'].
Qed.

Lemma build_loop_first_missing : forall pre k c post args,
  missing k c ->
  (forall k' c', In (k', c') pre -> ~ missing k' c') ->
  build_loop (app pre ((k, c) :: post)) kwargs args = build_failure k.
Proof.
  induction pre as [|[k0 c0] pre IH]; intros k c post args Hm Hpre; simpl app.
  - destruct Hm as (H1 & H2 & H3). simpl. rewrite H1, H2, H3. reflexivity.
  - rewrite build_loop_step by (apply Hpre; left; reflexivity).
    apply IH; [exact Hm|]. intros k' c' Hin. apply Hpre. right. exact Hin.
Qed.

(** The first missing field of a schema, in iteration order. *)
Lemma first_missing : forall items,
  (exists k c, In (k, c) items /\ missing k c) ->
  exists pre k c post,
    items = app pre ((k, c) :: post) /\ missing k c /\
    (forall k' c', In (k', c') pre -> ~ missing k' c').
Proof.
  induction items as [|[k c] rest IH]; intros (k' & c' & Hin & Hm); [contradiction|].
  destruct (missing_dec k c) as [Hkc|Hkc].
  - exists [], k, c, rest. split; [reflexivity|split; [exact Hkc|intros ? ? []]].
  - destruct Hin as [Heq|Hin].
    + inversion Heq; subst. contradiction.
    + destruct IH as (pre & k1 & c1 & post & Heq & Hm1 & Hpre); [eauto|].
      exists ((k, c) :: pre), k1, c1, post. subst. split; [reflexivity|split; [exact Hm1|]].
      intros k2 c2 [Hx|Hx]; [inversion Hx; subst; exact Hkc|eauto].
Qed.

End BuildLoop.

(** ** The registry *)

Lemma build_args_schema obj method schema kwargs :
  schema_of obj method = Some schema ->
  _build_args obj method kwargs = Ok (build_loop schema kwargs []).
Proof.
  unfold schema_of, _build_args.
  destruct (dict_get CACHET_PARAMS_DEFINITION obj); [|discriminate].
  intros ->. reflexivity.
Qed.

(** Case analysis on the registry lookups in a hypothesis. *)
Ltac destruct_lookup H :=
  repeat (simpl in H;
          match type of H with context [if ?b then _ else _] => destruct b end).

Lemma schema_keys_nodup obj method schema :
  schema_of obj method = Some schema -> NoDup (map fst schema).
Proof.
  unfold schema_of; intros H; destruct_lookup H; try discriminate;
    inversion H; subst; simpl;
    repeat (constructor; [simpl; intuition discriminate|]); constructor.
Qed.

(** ** C2 *)

(** C2: for every (resource, operation) pair of the registry, calling
    [_build_args] with every mandatory field supplied and no optional
    field succeeds; its argument set holds exactly the mandatory fields
    (with the supplied values) and the optional fields whose declared
    default is truthy (with that default); an optional field with no
    default or a falsy one is left out. *)
Theorem build_args_mandatory_only :
  forall obj method schema kwargs,
  schema_of obj method = Some schema ->
  (forall k c, In (k, c) schema -> mandatory c = true -> dict_get kwargs k <> None) ->
  (forall k c, In (k, c) schema -> mandatory c = false -> dict_get kwargs k = None) ->
  exists args,
    _build_args obj method kwargs = Ok (build_success args) /\
    (forall k, In k (map fst args) <->
       exists c, In (k, c) schema /\
         (mandatory c = true \/ exists d, default c = Some d /\ truthy d = true)) /\
    (forall k v, dict_get args k = Some v ->
       exists c, In (k, c) schema /\
         ((mandatory c = true /\ dict_get kwargs k = Some v) \/
          (mandatory c = false /\ default c = Some v /\ truthy v = true))) /\
    (forall k c, In (k, c) schema -> mandatory c = false ->
       (forall d, default c = Some d -> truthy d = false) ->
       ~ In k (map fst args)).
Proof.
  intros obj method schema kwargs Hs Hmand Hopt.
  rewrite (build_args_schema _ _ _ _ Hs).
  destruct (build_loop_ok kwargs schema []) as (args & Heq & Hkeys & Hvals).
  { intros k c Hin (Hm & _ & Hn). exact (Hmand k c Hin Hm Hn). }
  assert (Hkeys' : forall k, In k (map fst args) <->
       exists c, In (k, c) schema /\
         (mandatory c = true \/ exists d, default c = Some d /\ truthy d = true)).
  { intros k. rewrite Hkeys. simpl. split.
    - intros [[]|(c & v & Hin & Hsv)]. exists c. split; [exact Hin|].
      unfold step_value in Hsv.
      destruct (mandatory c) eqn:Hm; [left; reflexivity|right].
      rewrite (Hopt k c Hin Hm) in Hsv.
      destruct (default c) as [d|]; [|discriminate].
      exists d. destruct (truthy d); [split; reflexivity|discriminate].
    - intros (c & Hin & Hc); right. exists c. unfold step_value.
      destruct (dict_get kwargs k) as [v|] eqn:Hk; [exists v; auto|].
      destruct Hc as [Hm|(d & Hd & Ht)]; [exfalso; exact (Hmand k c Hin Hm Hk)|].
      exists d. rewrite Hd, Ht, orb_true_r. auto. }
  exists args. split; [rewrite Heq; reflexivity|split; [exact Hkeys'|split]].
  - intros k v Hg. destruct (Hvals k v Hg) as [Habs|(c & Hin & Hsv)]; [discriminate|].
    exists c. split; [exact Hin|]. unfold step_value in Hsv.
    destruct (mandatory c) eqn:Hm.
    + left. split; [reflexivity|].
      destruct (dict_get kwargs k) as [w|] eqn:Hk; [exact Hsv|exfalso; exact (Hmand k c Hin Hm Hk)].
    + right. rewrite (Hopt k c Hin Hm) in Hsv.
      destruct (default c) as [d|]; [|discriminate].
      destruct (truthy d) eqn:Ht; [|discriminate]. inversion Hsv; subst. auto.
  - intros k c Hin Hm Hfalsy Hk. apply Hkeys' in Hk.
    destruct Hk as (c' & Hin' & Hc').
    assert (c' = c) as ->.
    { apply (nodup_keys_in schema k); [exact (schema_keys_nodup _ _ _ Hs)|exact Hin'|exact Hin]. }
    destruct Hc' as [Hm'|(d & Hd & Ht)]; [congruence|].
    rewrite (Hfalsy d Hd) in Ht. discriminate.
Qed.

Lemma string_app_cancel_r : forall s1 s2 t : string, (s1 ++ t = s2 ++ t)%string -> s1 = s2.
Proof.
  assert (Hlen : forall s t : string, String.length (s ++ t) = (String.length s + String.length t)%nat).
  { induction s as [|c s IH]; intros t; simpl; [reflexivity|rewrite IH; reflexivity]. }
  induction s1 as [|c1 s1 IH]; intros s2 t H; destruct s2 as [|c2 s2]; simpl in H.
  - reflexivity.
  - exfalso. apply (f_equal String.length) in H. simpl in H. rewrite Hlen in H. lia.
  - exfalso. apply (f_equal String.length) in H. simpl in H. rewrite Hlen in H. lia.
  - injection H as -> H. f_equal. exact (IH s2 t H).
Qed.

Lemma build_failure_inj k k' : build_failure k = build_failure k' -> k = k'.
Proof.
  unfold build_failure. intros H. injection H as H.
  exact (string_app_cancel_r k k' " is missing" H).
Qed.

Lemma build_loop_failure kwargs : forall items args k',
  build_loop items kwargs args = build_failure k' ->
  exists c', In (k', c') items /\ missing kwargs k' c'.
Proof.
  induction items as [|[k c] rest IH]; intros args k' H.
  - discriminate.
  - destruct (missing_dec kwargs k c) as [Hm|Hm].
    + pose proof Hm as (H1 & H2 & H3). simpl in H. rewrite H1, H3, H2 in H.
      apply build_failure_inj in H. subst k'.
      exists c. split; [left; reflexivity|exact Hm].
    + rewrite build_loop_step in H by exact Hm.
      destruct (IH _ _ H) as (c' & Hin & Hm'). exists c'. split; [right; exact Hin|exact Hm'].
Qed.

(** ** C3 *)

(** C3: for every (resource, operation) pair of the registry, when a
    mandatory field without a default is absent, [_build_args] returns
    [{'res': False, 'message': 'Mandatory params k is missing'}] naming
    the first such field [k] in schema order, whatever the fields after
    it (the loop stops there); a mandatory field that declares a default
    and is absent does not fail the call but receives that default: when
    no field is missing the call succeeds with the default stored, and a
    failure only ever names a mandatory field with no default that is
    absent. *)
Theorem build_args_missing_mandatory :
  forall obj method schema kwargs,
  schema_of obj method = Some schema ->
  (forall pre k c post,
     schema = app pre ((k, c) :: post) ->
     mandatory c = true -> default c = None -> dict_get kwargs k = None ->
     (forall k' c', In (k', c') pre ->
        mandatory c' = true -> default c' = None -> dict_get kwargs k' <> None) ->
     _build_args obj method kwargs = Ok (build_failure k)) /\
  ((exists k c, In (k, c) schema /\
       mandatory c = true /\ default c = None /\ dict_get kwargs k = None) ->
   exists k c, In (k, c) schema /\
       mandatory c = true /\ default c = None /\ dict_get kwargs k = None /\
       _build_args obj method kwargs = Ok (build_failure k)) /\
  (forall k c d args,
     In (k, c) schema -> mandatory c = true -> default c = Some d ->
     dict_get kwargs k = None ->
     _build_args obj method kwargs = Ok (build_success args) ->
     dict_get args k = Some d) /\
  (forall k c d,
     In (k, c) schema -> mandatory c = true -> default c = Some d ->
     dict_get kwargs k = None ->
     (forall k' c', In (k', c') schema ->
        mandatory c' = true -> default c' = None -> dict_get kwargs k' <> None) ->
     exists args, _build_args obj method kwargs = Ok (build_success args) /\
       dict_get args k = Some d) /\
  (forall k',
     _build_args obj method kwargs = Ok (build_failure k') ->
     exists c', In (k', c') schema /\
       mandatory c' = true /\ default c' = None /\ dict_get kwargs k' = None).
Proof.
  intros obj method schema kwargs Hs.
  rewrite (build_args_schema _ _ _ _ Hs).
  assert (Hfail : forall pre k c post,
     schema = app pre ((k, c) :: post) -> missing kwargs k c ->
     (forall k' c', In (k', c') pre -> ~ missing kwargs k' c') ->
     build_loop schema kwargs [] = build_failure k).
  { intros pre k c post -> Hm Hpre. apply build_loop_first_missing; assumption. }
  assert (Hsome : (exists k c, In (k, c) schema /\ missing kwargs k c) ->
     exists k c, In (k, c) schema /\ missing kwargs k c /\
       build_loop schema kwargs [] = build_failure k).
  { intros Hex. destruct (first_missing kwargs schema Hex) as (pre & k & c & post & Heq & Hm & Hpre).
    exists k, c. split; [|split; [exact Hm|exact (Hfail pre k c post Heq Hm Hpre)]].
    rewrite Heq. apply in_or_app. right. left. reflexivity. }
  assert (Hdef : forall k c d args,
     In (k, c) schema -> mandatory c = true -> default c = Some d ->
     dict_get kwargs k = None ->
     Ok (build_loop schema kwargs []) = Ok (build_success args) ->
     dict_get args k = Some d).
  { intros k c d args Hin Hm Hd Hk Hres. injection Hres as Hres.
    destruct (build_loop_ok kwargs schema []) as (args' & Heq & Hkeys & Hvals).
    { intros k' c' Hin' Hm'.
      destruct Hsome as (k1 & c1 & _ & _ & Hf); [exists k', c'; split; assumption|].
      rewrite Hf in Hres. discriminate. }
    rewrite Heq in Hres. injection Hres as <-.
    assert (Hsv : step_value kwargs k c = Some d).
    { unfold step_value. rewrite Hk, Hd, Hm. reflexivity. }
    assert (Hin_args : In k (map fst args')).
    { apply Hkeys. right. exists c, d. split; assumption. }
    destruct (dict_get args' k) as [v|] eqn:Hg.
    + destruct (Hvals k v Hg) as [Habs|(c' & Hin' & Hsv')]; [discriminate|].
      assert (c' = c) as ->.
      { apply (nodup_keys_in schema k); [exact (schema_keys_nodup _ _ _ Hs)|exact Hin'|exact Hin]. }
      congruence.
    + apply dict_get_none in Hg. contradiction. }
  split; [|split; [|split; [|split]]].
  - intros pre k c post Heq H1 H2 H3 Hpre. f_equal.
    apply (Hfail pre k c post Heq (conj H1 (conj H2 H3))).
    intros k' c' Hin (M1 & M2 & M3). exact (Hpre k' c' Hin M1 M2 M3).
  - intros (k & c & Hin & H1 & H2 & H3).
    destruct Hsome as (k' & c' & Hin' & (M1 & M2 & M3) & Heq); [exists k, c; repeat split; assumption|].
    exists k', c'. repeat split; try assumption. rewrite Heq. reflexivity.
  - exact Hdef.
  - intros k c d Hin Hm Hd Hk Hnone.
    destruct (build_loop_ok kwargs schema []) as (args & Heq & _).
    { intros k' c' Hin' (M1 & M2 & M3). exact (Hnone k' c' Hin' M1 M2 M3). }
    exists args. split; [rewrite Heq; reflexivity|].
    apply (Hdef k c d args Hin Hm Hd Hk). rewrite Heq. reflexivity.
  - intros k' Hf. injection Hf as Hf.
    destruct (build_loop_failure kwargs schema [] k' Hf) as (c' & Hin & M1 & M2 & M3).
    exists c'. auto.
Qed.

(** ** Executor lemmas *)

Lemma with_setting_given cfg v k1 k2 k :
  truthy v = true -> with_setting cfg v k1 k2 k = k v.
Proof. unfold with_setting. intros ->. reflexivity. Qed.

Lemma with_setting_config cfg v k1 k2 k :
  truthy v = false -> truthy (py_or (cfg k1) (cfg k2)) = true ->
  with_setting cfg v k1 k2 k = k (py_or (cfg k1) (cfg k2)).
Proof. unfold with_setting. intros -> ->. reflexivity. Qed.

Lemma with_setting_absent cfg v k1 k2 k :
  truthy v = false -> truthy (py_or (cfg k1) (cfg k2)) = false ->
  with_setting cfg v k1 k2 k = Ret (Ok no_api_key).
Proof. unfold with_setting. intros -> ->. reflexivity. Qed.

(** A configuration with the base URL under the dotted key and the
    token under the colon-separated one. *)
Definition cfg_example : config :=
  fun k =>
    if String.eqb k "cachet.api_url" then PStr "https://status.example.com"
    else if String.eqb k "cachet:api_token" then PStr "peWcBiMOS9HrZG15"
    else PStr "".

Definition kw_api_1 : list (string * pyval) := [("name", PStr "API"); ("status", PInt 1)].

(** ** C1 *)

(** C1 (as amended): with the base URL [https://status.example.com] and
    a token [tok] resolved from the configuration, [add_component] with
    [name="API", status=1] issues exactly one request: a POST to
    [https://status.example.com/api/v1/components] whose argument set
    (passed as the query parameters, with no body) is
    [{name: "API", status: 1, enabled: True}] (the falsy default
    [order: 0] is not materialised) and whose headers are
    [{X-Cachet-Token: tok}]. *)
Theorem add_component_api_request :
  forall cfg tok transport,
  py_or (cfg "cachet.api_url") (cfg "cachet:api_url") = PStr "https://status.example.com" ->
  py_or (cfg "cachet.api_token") (cfg "cachet:api_token") = tok ->
  truthy tok = true ->
  fst (run transport (add_component cfg PNone PNone kw_api_1)) =
  [ {| req_url := "https://status.example.com/api/v1/components";
       req_method := "POST";
       req_params := PDict [("name", PStr "API"); ("status", PInt 1); ("enabled", PBool true)];
       req_data := PNone;
       req_headers := [("X-Cachet-Token", tok)] |} ].
Proof.
  intros cfg tok transport Hurl Htok Ht.
  unfold add_component, _query. cbn -[with_setting urljoin].
  rewrite with_setting_config by (try rewrite Hurl; reflexivity).
  rewrite Hurl.
  rewrite with_setting_config by (try rewrite Htok; auto).
  rewrite Htok. reflexivity.
Qed.

Lemma add_component_api_request_witness :
  fst (run (fun _ => PNone) (add_component cfg_example PNone PNone kw_api_1)) =
  [ {| req_url := "https://status.example.com/api/v1/components";
       req_method := "POST";
       req_params := PDict [("name", PStr "API"); ("status", PInt 1); ("enabled", PBool true)];
       req_data := PNone;
       req_headers := [("X-Cachet-Token", PStr "peWcBiMOS9HrZG15")] |} ].
Proof.
  apply (add_component_api_request cfg_example (PStr "peWcBiMOS9HrZG15")); reflexivity.
Defined.

(** C1 fails as stated: the request [add_component(name="API", status=1)]
    issues carries no [order] key, so its argument set is not
    [{name, status, order: 0, enabled: true}]; it has no body either. *)
Lemma add_component_no_order_key :
  match fst (run (fun _ => PNone) (add_component cfg_example PNone PNone kw_api_1)) with
  | [r] => py_contains (req_params r) "order" = Ok false /\ req_data r = PNone
  | _ => False
  end.
Proof. vm_compute. split; reflexivity. Qed.

(** Case analysis on the fallible steps of [_query] after its settings:
    the URL's type and the two [urljoin] calls. *)
Ltac split_query_steps :=
  repeat (match goal with |- context [ilift ?o _] => destruct o end; cbn [ilift]).

(** Every run of [_query] either returns before the transport, or issues
    one request and interprets its result with [_query_response]. *)
Lemma query_cases cfg function api_url api_token auth args method hd data :
  (exists o, _query cfg function api_url api_token auth args method hd data = Ret o) \/
  (exists req, _query cfg function api_url api_token auth args method hd data =
               Http req (fun result => Ret (_query_response result))).
Proof.
  unfold _query, with_setting.
  repeat match goal with
  | |- context [if ?b then _ else _] => destruct b
  end;
  split_query_steps;
  first [left; eexists; reflexivity | right; eexists; reflexivity].
Qed.

Lemma query_run_response cfg function api_url api_token auth args method hd data result rs o :
  run (fun _ => result) (_query cfg function api_url api_token auth args method hd data) = (rs, o) ->
  rs <> [] -> o = _query_response result.
Proof.
  intros Hrun Hne.
  destruct (query_cases cfg function api_url api_token auth args method hd data)
    as [(o' & Heq)|(req & Heq)]; rewrite Heq in Hrun; simpl in Hrun;
    inversion Hrun; subst; [congruence|reflexivity].
Qed.

(** ** C4 *)

(** C4: [_check_component_status] succeeds exactly when its argument
    converts with [int()] to a value in [1, 4] (1, 2, 3, 4 pass; 0, 5, -1
    fail); an out-of-range value raises [Exception], an argument [int()]
    rejects raises that error; [add_component(name="API", status=9)]
    assembles its arguments and then raises, returning before any HTTP
    request. *)
Theorem check_component_status_range :
  (forall v, _check_component_status v = Ok tt <->
             exists z, py_int v = Ok z /\ 1 <= z <= 4) /\
  (forall v z, py_int v = Ok z -> (z < 1 \/ 4 < z) ->
     _check_component_status v =
     Raise (Exception ("Wrong component status " ++ Z_to_dec z ++ ", must be between 1 and 4"))) /\
  (forall v e, py_int v = Raise e -> _check_component_status v = Raise e) /\
  Forall (fun z => _check_component_status (PInt z) = Ok tt) [1; 2; 3; 4] /\
  Forall (fun z => exists e, _check_component_status (PInt z) = Raise e) [0; 5; -1] /\
  (exists e, _check_component_status (PStr "abc") = Raise e) /\
  _build_args "components" "add" [("name", PStr "API"); ("status", PInt 9)] =
    Ok (build_success [("name", PStr "API"); ("status", PInt 9); ("enabled", PBool true)]) /\
  (forall cfg api_url api_token,
     add_component cfg api_url api_token [("name", PStr "API"); ("status", PInt 9)] =
     Ret (Raise (Exception "Wrong component status 9, must be between 1 and 4"))).
Proof.
  split; [|split; [|split; [|split; [|split; [|split; [|split]]]]]].
  - intros v. unfold _check_component_status. destruct (py_int v) as [z|e]; simpl.
    + destruct (Z.ltb_spec z 1), (Z.ltb_spec 4 z); simpl; split.
      all: try discriminate.
      all: try (intros (z' & Hz & Hr); inversion Hz; subst; lia).
      all: try (intros _; reflexivity).
      intros _. exists z. split; [reflexivity|lia].
    + split; [discriminate|]. intros (z & Hz & _). discriminate.
  - intros v z Hz Hr. unfold _check_component_status. rewrite Hz. simpl.
    destruct Hr as [Hr|Hr].
    + apply Z.ltb_lt in Hr. rewrite Hr. reflexivity.
    + apply Z.ltb_lt in Hr. rewrite Hr, orb_true_r. reflexivity.
  - intros v e He. unfold _check_component_status. rewrite He. reflexivity.
  - repeat constructor.
  - repeat constructor; eexists; reflexivity.
  - eexists; reflexivity.
  - reflexivity.
  - intros. reflexivity.
Qed.

Lemma check_component_status_range_witness :
  _check_component_status (PStr " 7 ") =
  Raise (Exception "Wrong component status 7, must be between 1 and 4").
Proof.
  destruct check_component_status_range as (_ & H & _).
  apply (H (PStr " 7 ") 7); [reflexivity|lia].
Defined.

(** ** C5 *)

(** C5 fails on the code: when the transport answers status 500 with the
    decoded body [{"error": "boom"}], [_query] (here through
    [get_components]) raises [UnboundLocalError] on [_result] instead of
    returning [{res: False, message: "boom"}]: the non-200/204 branch
    looks for ['error'] in the transport's result dict, not in the
    decoded body, and its fallback reads [_result], which only the
    status-200 branch assigns. *)
Theorem query_500_error_body_raises :
  run (fun _ => PDict [("status", PInt 500); ("dict", PDict [("error", PStr "boom")])])
      (get_components cfg_example PNone PNone PNone) =
  ([ {| req_url := "https://status.example.com/api/v1/components";
        req_method := "GET"; req_params := PDict []; req_data := PNone;
        req_headers := [] |} ],
   Raise (UnboundLocalError "_result")).
Proof. reflexivity. Qed.

(** ** C6 *)

(** C6 (as amended): when a request is issued and the transport answers
    status 200 with a decoded dict body, [_query] returns
    [{message: body['error'], res: False}] if the body has an ['error']
    key, and otherwise [{message: body.get('data'), res: True}], which is
    [None] when the body has no ['data'] key; in particular
    [get_components()] against the body
    [{"data": [{"id": 1, "name": "API"}]}] returns
    [{message: [{"id": 1, "name": "API"}], res: True}]. *)
Theorem query_status_200 :
  (forall cfg function api_url api_token auth args method hd data r body rs o,
     dict_get r "status" = Some (PInt 200) ->
     dict_get r "dict" = Some (PDict body) ->
     run (fun _ => PDict r) (_query cfg function api_url api_token auth args method hd data) = (rs, o) ->
     rs <> [] ->
     o = Ok (match dict_get body "error" with
             | Some e => ret_dict e (PBool false)
             | None =>
                 ret_dict (match dict_get body "data" with Some d => d | None => PNone end)
                          (PBool true)
             end)) /\
  snd (run (fun _ => PDict [("status", PInt 200);
                            ("dict", PDict [("data", PList [PDict [("id", PInt 1); ("name", PStr "API")]])])])
           (get_components cfg_example PNone PNone PNone)) =
  Ok (ret_dict (PList [PDict [("id", PInt 1); ("name", PStr "API")]]) (PBool true)).
Proof.
  split; [|reflexivity].
  intros cfg function api_url api_token auth args method hd data r body rs o Hs Hd Hrun Hne.
  rewrite (query_run_response _ _ _ _ _ _ _ _ _ _ _ _ Hrun Hne).
  unfold _query_response. simpl. rewrite Hs. simpl. rewrite Hd. simpl.
  unfold dict_mem. destruct (dict_get body "error"); simpl; [reflexivity|].
  destruct (dict_get body "data"); reflexivity.
Qed.

Definition error_200 : pyval := PDict [("status", PInt 200); ("dict", PDict [("error", PStr "x")])].

Lemma query_status_200_witness :
  snd (run (fun _ => error_200)
           (_query cfg_example "components" PNone PNone false PNone "GET" None PNone)) =
  Ok (ret_dict (PStr "x") (PBool false)).
Proof.
  destruct query_status_200 as (H & _).
  apply (H cfg_example "components" PNone PNone false PNone "GET" None PNone
           [("status", PInt 200); ("dict", PDict [("error", PStr "x")])]
           [("error", PStr "x")]
           (fst (run (fun _ => error_200)
                 (_query cfg_example "components" PNone PNone false PNone "GET" None PNone)))).
  - reflexivity.
  - reflexivity.
  - reflexivity.
  - simpl. discriminate.
Defined.

(** C6 fails as stated: a status-200 body without a ['data'] key yields
    the message [None], not the whole decoded body. *)
Lemma query_200_without_data :
  snd (run (fun _ => PDict [("status", PInt 200); ("dict", PDict [("id", PInt 1)])])
           (get_components cfg_example PNone PNone PNone)) =
  Ok (ret_dict PNone (PBool true)).
Proof. reflexivity. Qed.

(** ** C7 *)

(** C7: when a request is issued and the transport answers status 204,
    [_query] returns the bare [True]: a success with no payload. *)
Theorem query_status_204 :
  forall cfg function api_url api_token auth args method hd data r rs o,
  dict_get r "status" = Some (PInt 204) ->
  run (fun _ => PDict r) (_query cfg function api_url api_token auth args method hd data) = (rs, o) ->
  rs <> [] ->
  o = Ok (PBool true).
Proof.
  intros cfg function api_url api_token auth args method hd data r rs o Hs Hrun Hne.
  rewrite (query_run_response _ _ _ _ _ _ _ _ _ _ _ _ Hrun Hne).
  unfold _query_response. simpl. rewrite Hs. reflexivity.
Qed.

Definition no_content : pyval := PDict [("status", PInt 204); ("dict", PDict [("data", PStr "ignored")])].

Lemma query_status_204_witness :
  snd (run (fun _ => no_content)
           (_query cfg_example "components/1" PNone PNone true PNone "DELETE" None PNone)) =
  Ok (PBool true).
Proof.
  apply (query_status_204 cfg_example "components/1" PNone PNone true PNone "DELETE" None PNone
           [("status", PInt 204); ("dict", PDict [("data", PStr "ignored")])]
           (fst (run (fun _ => no_content)
                 (_query cfg_example "components/1" PNone PNone true PNone "DELETE" None PNone)))).
  - reflexivity.
  - reflexivity.
  - simpl. discriminate.
Defined.

(** ** C8 *)

(** C8: with no [api_url] given and neither [cachet.api_url] nor
    [cachet:api_url] configured to a truthy value, [_query] returns the
    failure [{message: 'No Cachet api key found.', res: False}] and the
    transport is never called. *)
Theorem query_no_api_url :
  forall cfg function api_token auth args method hd data transport,
  truthy (cfg "cachet.api_url") = false ->
  truthy (cfg "cachet:api_url") = false ->
  run transport (_query cfg function PNone api_token auth args method hd data) =
  ([], Ok no_api_key).
Proof.
  intros cfg function api_token auth args method hd data transport H1 H2.
  unfold _query. rewrite with_setting_absent; [reflexivity|reflexivity|].
  unfold py_or. rewrite H1. exact H2.
Qed.

Definition cfg_empty : config := fun _ => PStr "".

Lemma query_no_api_url_witness :
  run (fun _ => PDict [("status", PInt 200)])
      (_query cfg_empty "components" PNone PNone false PNone "GET" None PNone) =
  ([], Ok no_api_key).
Proof. apply query_no_api_url; reflexivity. Defined.

(** ** C9 *)

Lemma build_update_no_status obj method schema kwargs :
  schema_of obj method = Some schema ->
  (forall k c, In (k, c) schema -> mandatory c = false) ->
  (forall c, In ("status", c) schema -> default c = None) ->
  dict_get kwargs "status" = None ->
  exists args, _build_args obj method kwargs = Ok (build_success args) /\
               dict_get args "status" = None.
Proof.
  intros Hs Hopt Hdef Hk.
  rewrite (build_args_schema _ _ _ _ Hs).
  destruct (build_loop_ok kwargs schema []) as (args & Heq & Hkeys & _).
  { intros k c Hin (Hm & _). rewrite (Hopt k c Hin) in Hm. discriminate. }
  exists args. split; [rewrite Heq; reflexivity|].
  apply dict_get_none. intros Hin. apply Hkeys in Hin.
  destruct Hin as [[]|(c & v & Hin & Hsv)].
  unfold step_value in Hsv. rewrite Hk, (Hdef c Hin) in Hsv. discriminate.
Qed.

Ltac schema_fields :=
  intros *; let Hin := fresh "Hin" in intros Hin; simpl in Hin; repeat destruct Hin as [Hin|Hin];
  try contradiction; inversion Hin; subst; reflexivity.

(** C9 (as amended): when the keyword arguments carry no [status], the
    argument sets built for [update_component] and [update_incident] have
    no [status] key, and neither function ever reaches [_query]: with no
    keyword named [obj] or [method], both raise [KeyError('status')] at
    [args['status']]; with such a keyword, the call to [_build_args]
    raises [TypeError] first. *)
Theorem update_without_status_key_error :
  forall cfg id api_url api_token kwargs,
  dict_get kwargs "status" = None ->
  (exists args, _build_args "components" "update" kwargs = Ok (build_success args) /\
                dict_get args "status" = None) /\
  (exists args, _build_args "incidents" "update" kwargs = Ok (build_success args) /\
                dict_get args "status" = None) /\
  (kw_collision kwargs = None ->
   update_component cfg id api_url api_token kwargs = Ret (Raise (KeyError "status")) /\
   update_incident cfg id api_url api_token kwargs = Ret (Raise (KeyError "status"))) /\
  (forall k, kw_collision kwargs = Some k ->
   let e := TypeError ("_build_args() got multiple values for argument '" ++ k ++ "'") in
   update_component cfg id api_url api_token kwargs = Ret (Raise e) /\
   update_incident cfg id api_url api_token kwargs = Ret (Raise e)) /\
  (exists e, update_component cfg id api_url api_token kwargs = Ret (Raise e)) /\
  (exists e, update_incident cfg id api_url api_token kwargs = Ret (Raise e)).
Proof.
  intros cfg id api_url api_token kwargs Hk.
  assert (Hc : exists args, _build_args "components" "update" kwargs = Ok (build_success args) /\
                            dict_get args "status" = None).
  { apply (build_update_no_status "components" "update"
             [("name", opt); ("status", opt); ("link", opt_d PNone);
              ("order", opt_d PNone); ("group_id", opt_d PNone)]);
      [reflexivity|schema_fields|schema_fields|exact Hk]. }
  assert (Hi : exists args, _build_args "incidents" "update" kwargs = Ok (build_success args) /\
                            dict_get args "status" = None).
  { apply (build_update_no_status "incidents" "update"
             [("name", opt); ("message", opt); ("status", opt);
              ("visible", opt_d (PInt 1)); ("component_id", opt); ("notify", opt)]);
      [reflexivity|schema_fields|schema_fields|exact Hk]. }
  assert (Hnone : kw_collision kwargs = None ->
    update_component cfg id api_url api_token kwargs = Ret (Raise (KeyError "status")) /\
    update_incident cfg id api_url api_token kwargs = Ret (Raise (KeyError "status"))).
  { intros Hn. destruct Hc as (a1 & Hb1 & Hg1), Hi as (a2 & Hb2 & Hg2).
    unfold update_component, update_incident, call_build_args. rewrite Hn, Hb1, Hb2.
    simpl. rewrite Hg1, Hg2. split; reflexivity. }
  assert (Hsome : forall k, kw_collision kwargs = Some k ->
    let e := TypeError ("_build_args() got multiple values for argument '" ++ k ++ "'") in
    update_component cfg id api_url api_token kwargs = Ret (Raise e) /\
    update_incident cfg id api_url api_token kwargs = Ret (Raise e)).
  { intros k Hs e. unfold update_component, update_incident, call_build_args. rewrite Hs.
    split; reflexivity. }
  split; [exact Hc|split; [exact Hi|split; [exact Hnone|split; [exact Hsome|]]]].
  destruct (kw_collision kwargs) as [k|] eqn:Hkw.
  - destruct (Hsome k eq_refl) as (H1 & H2). split; eexists; eassumption.
  - destruct (Hnone eq_refl) as (H1 & H2). split; eexists; eassumption.
Qed.

Lemma update_without_status_key_error_witness :
  update_component cfg_example (PInt 1) PNone PNone [("name", PStr "toto")] =
  Ret (Raise (KeyError "status")).
Proof.
  apply (proj1 (proj1 (proj2 (proj2 (update_without_status_key_error cfg_example (PInt 1)
           PNone PNone [("name", PStr "toto")] eq_refl))) eq_refl)).
Defined.

(** C9 fails as stated: [update_component(1, method='x')] passes no
    [status], yet raises [TypeError] (the keyword [method] collides with a
    parameter of [_build_args]), not a key-lookup error; no argument set
    is built. *)
Lemma update_method_keyword_type_error :
  dict_get [("method", PStr "x")] "status" = None /\
  update_component cfg_example (PInt 1) PNone PNone [("method", PStr "x")] =
  Ret (Raise (TypeError "_build_args() got multiple values for argument 'method'")) /\
  update_component cfg_example (PInt 1) PNone PNone [("method", PStr "x")] <>
  Ret (Raise (KeyError "status")).
Proof.
  split; [reflexivity|split; [reflexivity|discriminate]].
Qed.

(** ** C10 *)

(** C10 (as amended): [delete_metric_point] never issues a request.  For
    a [metric_id] and an [id] that ['%d'] formats (integers, booleans) it
    raises [NameError] on [args] when evaluating its call to [_query]; for
    any other [metric_id] or [id] the path formatting raises [TypeError]
    first. *)
Theorem delete_metric_point_never_requests :
  forall cfg metric_id id api_url api_token,
  (forall transport,
     fst (run transport (delete_metric_point cfg metric_id id api_url api_token)) = []) /\
  (forall m i, py_fmt_d metric_id = Ok m -> py_fmt_d id = Ok i ->
     delete_metric_point cfg metric_id id api_url api_token =
     Ret (Raise (NameError "name 'args' is not defined"))) /\
  ((exists e, py_fmt_d metric_id = Raise e) \/ (exists e, py_fmt_d id = Raise e) ->
     exists msg, delete_metric_point cfg metric_id id api_url api_token = Ret (Raise (TypeError msg))).
Proof.
  intros cfg metric_id id api_url api_token.
  unfold delete_metric_point.
  assert (Hfmt : forall v e, py_fmt_d v = Raise e -> exists msg, e = TypeError msg).
  { intros v e H. destruct v; simpl in H; try discriminate; inversion H; eexists; reflexivity. }
  split; [|split].
  - intros transport.
    destruct (py_fmt_d metric_id), (py_fmt_d id); reflexivity.
  - intros m i Hm Hi. rewrite Hm, Hi. reflexivity.
  - intros Hex. destruct (py_fmt_d metric_id) as [m|e0] eqn:Hm.
    + destruct Hex as [(e & He)|(e & He)]; [discriminate|].
      destruct (Hfmt _ _ He) as (msg & ->). exists msg. simpl. rewrite He. reflexivity.
    + destruct (Hfmt _ _ Hm) as (msg & ->). exists msg. reflexivity.
Qed.

Lemma delete_metric_point_never_requests_witness :
  delete_metric_point cfg_example (PInt 1) (PInt 2) PNone PNone =
  Ret (Raise (NameError "name 'args' is not defined")).
Proof.
  destruct (delete_metric_point_never_requests cfg_example (PInt 1) (PInt 2) PNone PNone)
    as (_ & H & _).
  apply (H "1" "2"); reflexivity.
Defined.

(** C10 fails as stated: for the string id ["1"], [delete_metric_point]
    raises [TypeError] while formatting its path, before it reaches the
    call to [_query], not an undefined-name error. *)
Lemma delete_metric_point_string_id :
  delete_metric_point cfg_example (PStr "1") (PInt 2) PNone PNone =
  Ret (Raise (TypeError "%d format: a number is required")).
Proof. reflexivity. Qed.

(** ** Witnesses for C2 and C3 *)

Lemma build_args_mandatory_only_witness :
  exists args,
    _build_args "incidents" "add"
      [("name", PStr "db"); ("message", PStr "down"); ("status", PInt 1);
       ("visible", PInt 0); ("unknown", PInt 3)] = Ok (build_success args) /\
    ~ In "notify" (map fst args).
Proof.
  destruct (build_args_mandatory_only "incidents" "add"
             [("name", mand); ("message", mand); ("status", mand);
              ("visible", mand_d (PInt 1)); ("component_id", opt_d PNone);
              ("component_status", opt_d PNone); ("notify", opt_d (PBool false))]
             [("name", PStr "db"); ("message", PStr "down"); ("status", PInt 1);
              ("visible", PInt 0); ("unknown", PInt 3)])
    as (args & Hb & _ & _ & Hout).
  - reflexivity.
  - intros k c Hin Hm. simpl in Hin.
    repeat destruct Hin as [Hin|Hin]; try contradiction; inversion Hin; subst;
      try discriminate; simpl; discriminate.
  - intros k c Hin Hm. simpl in Hin.
    repeat destruct Hin as [Hin|Hin]; try contradiction; inversion Hin; subst;
      try discriminate; reflexivity.
  - exists args. split; [exact Hb|].
    apply (Hout "notify" (opt_d (PBool false))).
    + simpl. tauto.
    + reflexivity.
    + intros d Hd. inversion Hd. reflexivity.
Defined.

Lemma build_args_missing_mandatory_witness :
  _build_args "components" "add" [("status", PInt 1)] = Ok (build_failure "name").
Proof.
  destruct (build_args_missing_mandatory "components" "add"
             [("name", mand); ("status", mand); ("description", opt_d PNone);
              ("link", opt_d PNone); ("order", opt_d (PInt 0));
              ("group_id", opt_d PNone); ("enabled", opt_d (PBool true))]
             [("status", PInt 1)])
    as (H & _ & _); [reflexivity|].
  apply (H [] "name" mand
           [("status", mand); ("description", opt_d PNone);
            ("link", opt_d PNone); ("order", opt_d (PInt 0));
            ("group_id", opt_d PNone); ("enabled", opt_d (PBool true))]).
  - reflexivity.
  - reflexivity.
  - reflexivity.
  - reflexivity.
  - intros k' c' [].
Defined.

(** * Further properties of the module *)

(** ** Running computations *)

Lemma run_ilift {A B} tr (o : outcome A) (k : A -> io B) rs o' :
  run tr (ilift o k) = (rs, o') -> rs <> [] ->
  exists a, o = Ok a /\ run tr (k a) = (rs, o').
Proof.
  destruct o as [a|e]; simpl; intros H Hne; [eauto|].
  inversion H; subst. congruence.
Qed.

Lemma run_ret_nil {A} tr (o : outcome A) rs o' :
  run tr (Ret o) = (rs, o') -> rs <> [] -> False.
Proof. simpl. intros H Hne. inversion H; subst. congruence. Qed.

(** Steps a hypothesis [run tr m = (rs, o)] with [rs <> []] through the
    leading [let?] or [if] of [m]. *)
Ltac step_run H Hne :=
  match type of H with
  | run _ (ilift ?o _) = _ =>
      let a := fresh "a" in let Ho := fresh "Ho" in let H' := fresh "H" in
      destruct (run_ilift _ _ _ _ _ H Hne) as (a & Ho & H'); clear H; rename H' into H
  | run _ (if ?b then _ else _) = _ =>
      let Hb := fresh "Hb" in
      destruct b eqn:Hb; [exfalso; exact (run_ret_nil _ _ _ _ H Hne)|]
  end.

(** Headers [_query] sends, for the token [t] it resolved. *)
Definition query_headers (auth : bool) (hd : option (list (string * pyval))) (t : pyval) :=
  let h := match hd with Some h => h | None => [] end in
  if auth then if dict_mem h "X-Cachet-Token" then h else dict_set h "X-Cachet-Token" t
  else h.

Definition query_params (args : pyval) : pyval :=
  match args with PDict _ => args | _ => PDict [] end.

(** The token [_query] resolves: the override, else the configuration. *)
Definition resolved_token (cfg : config) (api_token : pyval) : pyval :=
  if truthy api_token then api_token
  else py_or (cfg "cachet.api_token") (cfg "cachet:api_token").

Lemma query_shape cfg function api_url api_token auth args method hd data :
  (exists o, _query cfg function api_url api_token auth args method hd data = Ret o) \/
  (exists u t,
     _query cfg function api_url api_token auth args method hd data =
     Http {| req_url := u; req_method := method; req_params := query_params args;
             req_data := data; req_headers := query_headers auth hd t |}
          (fun result => Ret (_query_response result)) /\
     (auth = true -> t = resolved_token cfg api_token /\ truthy t = true)).
Proof.
  unfold _query, with_setting.
  destruct (truthy api_url) eqn:Hu;
    [|destruct (truthy (py_or (cfg "cachet.api_url") (cfg "cachet:api_url"))) eqn:Hc;
      [|left; eexists; reflexivity]];
  (destruct auth;
   [destruct (truthy api_token) eqn:Ht;
    [|destruct (truthy (py_or (cfg "cachet.api_token") (cfg "cachet:api_token"))) eqn:Htc;
      [|left; eexists; reflexivity]]|]);
  split_query_steps;
  try (left; eexists; reflexivity);
  right; eexists; exists (resolved_token cfg api_token); unfold resolved_token;
  rewrite ?Ht; (split; [reflexivity|]);
  intros Ha; try discriminate; split; auto.
Qed.

Lemma query_issued cfg function api_url api_token auth args method hd data tr r rs o :
  run tr (_query cfg function api_url api_token auth args method hd data) = (r :: rs, o) ->
  rs = [] /\ o = _query_response (tr r) /\
  exists u t,
    r = {| req_url := u; req_method := method; req_params := query_params args;
           req_data := data; req_headers := query_headers auth hd t |} /\
    (auth = true -> t = resolved_token cfg api_token /\ truthy t = true).
Proof.
  intros H.
  destruct (query_shape cfg function api_url api_token auth args method hd data)
    as [(o' & Heq)|(u & t & Heq & Ht)]; rewrite Heq in H; simpl in H; inversion H; subst.
  split; [reflexivity|split; [reflexivity|]]. exists u, t. auto.
Qed.

Ltac run_steps H Hne := repeat (step_run H Hne; cbv beta in H).

Lemma check_component_ok v :
  _check_component_status v = Ok tt -> exists z, py_int v = Ok z /\ 1 <= z <= 4.
Proof.
  unfold _check_component_status. destruct (py_int v) as [z|e]; simpl; [|discriminate].
  destruct (Z.ltb_spec z 1), (Z.ltb_spec 4 z); simpl; try discriminate.
  intros _. exists z. split; [reflexivity|lia].
Qed.

Lemma check_incident_ok v :
  _check_incident_status v = Ok tt -> exists z, py_int v = Ok z /\ 0 <= z <= 4.
Proof.
  unfold _check_incident_status. destruct (py_int v) as [z|e]; simpl; [|discriminate].
  destruct (Z.ltb_spec z 0), (Z.ltb_spec 4 z); simpl; try discriminate.
  intros _. exists z. split; [reflexivity|lia].
Qed.

Lemma getitem_dict v k x : py_getitem v k = Ok x -> query_params v = v.
Proof. destruct v; simpl; try discriminate. reflexivity. Qed.

(** ** X1 *)

(** [_check_incident_status] succeeds exactly when [int()] of its
    argument lies in [0, 4]; an out-of-range value raises [Exception]
    with the value in its message, and an argument [int()] rejects raises
    that error. *)
Theorem check_incident_status_range :
  (forall v, _check_incident_status v = Ok tt <->
             exists z, py_int v = Ok z /\ 0 <= z <= 4) /\
  (forall v z, py_int v = Ok z -> (z < 0 \/ 4 < z) ->
     _check_incident_status v =
     Raise (Exception ("Wrong incident status " ++ Z_to_dec z ++ ", must be between 0 and 4"))) /\
  (forall v e, py_int v = Raise e -> _check_incident_status v = Raise e).
Proof.
  split; [|split].
  - intros v. split; [apply check_incident_ok|].
    intros (z & Hz & Hr). unfold _check_incident_status. rewrite Hz. simpl.
    destruct (Z.ltb_spec z 0), (Z.ltb_spec 4 z); try lia. reflexivity.
  - intros v z Hz Hr. unfold _check_incident_status. rewrite Hz. simpl.
    destruct Hr as [Hr|Hr].
    + apply Z.ltb_lt in Hr. rewrite Hr. reflexivity.
    + apply Z.ltb_lt in Hr. rewrite Hr, orb_true_r. reflexivity.
  - intros v e He. unfold _check_incident_status. rewrite He. reflexivity.
Qed.

Lemma check_incident_status_range_witness :
  _check_incident_status (PInt (-1)) =
  Raise (Exception "Wrong incident status -1, must be between 0 and 4").
Proof.
  destruct check_incident_status_range as (_ & H & _).
  apply (H (PInt (-1)) (-1)); [reflexivity|lia].
Defined.

(** ** X2 *)

(** Whenever [add_component] issues a request, the argument set it sends
    has a [status] that [int()] maps into [1, 4]. *)
Theorem add_component_sends_valid_status :
  forall cfg api_url api_token kwargs tr r rs o,
  run tr (add_component cfg api_url api_token kwargs) = (r :: rs, o) ->
  exists s z, py_getitem (req_params r) "status" = Ok s /\ py_int s = Ok z /\ 1 <= z <= 4.
Proof.
  intros cfg api_url api_token kwargs tr r rs o H.
  assert (Hne : r :: rs <> []) by discriminate.
  unfold add_component in H. run_steps H Hne.
  destruct (query_issued _ _ _ _ _ _ _ _ _ _ _ _ _ H) as (_ & _ & u & t & -> & _).
  simpl. rewrite (getitem_dict _ _ _ Ho2).
  destruct a3. destruct (check_component_ok _ Ho3) as (z & Hz & Hr).
  exists a2, z. auto.
Qed.

Definition answer_204 : pyval := PDict [("status", PInt 204)].

Lemma add_component_sends_valid_status_witness :
  exists s z, py_getitem (PDict [("name", PStr "API"); ("status", PInt 2); ("enabled", PBool true)]) "status" = Ok s /\
              py_int s = Ok z /\ 1 <= z <= 4.
Proof.
  apply (add_component_sends_valid_status cfg_example PNone PNone
           [("name", PStr "API"); ("status", PInt 2)] (fun _ => answer_204)
           {| req_url := "https://status.example.com/api/v1/components";
              req_method := "POST";
              req_params := PDict [("name", PStr "API"); ("status", PInt 2); ("enabled", PBool true)];
              req_data := PNone;
              req_headers := [("X-Cachet-Token", PStr "peWcBiMOS9HrZG15")] |}
           [] (Ok (PBool true))).
  reflexivity.
Defined.

(** ** X3 *)

(** Whenever [update_component] issues a request, the argument set it
    sends has a [status] key, whose value is either falsy (and was not
    checked) or maps with [int()] into [1, 4]. *)
Theorem update_component_sends_checked_status :
  forall cfg id api_url api_token kwargs tr r rs o,
  run tr (update_component cfg id api_url api_token kwargs) = (r :: rs, o) ->
  exists s, py_getitem (req_params r) "status" = Ok s /\
    (truthy s = false \/ exists z, py_int s = Ok z /\ 1 <= z <= 4).
Proof.
  intros cfg id api_url api_token kwargs tr r rs o H.
  assert (Hne : r :: rs <> []) by discriminate.
  unfold update_component in H. run_steps H Hne.
  destruct (query_issued _ _ _ _ _ _ _ _ _ _ _ _ _ H) as (_ & _ & u & t & -> & _).
  simpl. rewrite (getitem_dict _ _ _ Ho2). exists a2. split; [exact Ho2|].
  destruct (truthy a2) eqn:Ht; [right|left; reflexivity].
  rewrite Ho2 in Ho3. simpl in Ho3. destruct a3.
  exact (check_component_ok _ Ho3).
Qed.

Lemma update_component_sends_checked_status_witness :
  exists s, py_getitem (PDict [("status", PInt 0)]) "status" = Ok s /\
    (truthy s = false \/ exists z, py_int s = Ok z /\ 1 <= z <= 4).
Proof.
  apply (update_component_sends_checked_status cfg_example (PInt 3) PNone PNone
           [("status", PInt 0)] (fun _ => answer_204)
           {| req_url := "https://status.example.com/api/v1/components/3";
              req_method := "PUT";
              req_params := PDict [("status", PInt 0)];
              req_data := PNone;
              req_headers := [("X-Cachet-Token", PStr "peWcBiMOS9HrZG15")] |}
           [] (Ok (PBool true))).
  reflexivity.
Defined.

(** ** X4 *)

(** Whenever [update_incident] issues a request, the argument set it
    sends has a [status] key, whose value is either falsy (and was not
    checked) or maps with [int()] into [0, 4]. *)
Theorem update_incident_sends_checked_status :
  forall cfg id api_url api_token kwargs tr r rs o,
  run tr (update_incident cfg id api_url api_token kwargs) = (r :: rs, o) ->
  exists s, py_getitem (req_params r) "status" = Ok s /\
    (truthy s = false \/ exists z, py_int s = Ok z /\ 0 <= z <= 4).
Proof.
  intros cfg id api_url api_token kwargs tr r rs o H.
  assert (Hne : r :: rs <> []) by discriminate.
  unfold update_incident in H. run_steps H Hne.
  destruct (query_issued _ _ _ _ _ _ _ _ _ _ _ _ _ H) as (_ & _ & u & t & -> & _).
  simpl. rewrite (getitem_dict _ _ _ Ho2). exists a2. split; [exact Ho2|].
  destruct (truthy a2) eqn:Ht; [right|left; reflexivity].
  rewrite Ho2 in Ho3. simpl in Ho3. destruct a3.
  exact (check_incident_ok _ Ho3).
Qed.

Lemma update_incident_sends_checked_status_witness :
  exists s, py_getitem (PDict [("status", PStr "4"); ("visible", PInt 1)]) "status" = Ok s /\
    (truthy s = false \/ exists z, py_int s = Ok z /\ 0 <= z <= 4).
Proof.
  apply (update_incident_sends_checked_status cfg_example (PInt 3) PNone PNone
           [("status", PStr "4")] (fun _ => answer_204)
           {| req_url := "https://status.example.com/api/v1/incidents/3";
              req_method := "PUT";
              req_params := PDict [("status", PStr "4"); ("visible", PInt 1)];
              req_data := PNone;
              req_headers := [("X-Cachet-Token", PStr "peWcBiMOS9HrZG15")] |}
           [] (Ok (PBool true))).
  reflexivity.
Defined.

(** ** X5 *)

(** Whenever [add_incident] issues a request, the argument set it sends
    has a [status] that [int()] maps into [0, 4], and its
    [component_status] is absent, falsy, or maps with [int()] into
    [1, 4]. *)
Theorem add_incident_sends_valid_statuses :
  forall cfg api_url api_token kwargs tr r rs o,
  run tr (add_incident cfg api_url api_token kwargs) = (r :: rs, o) ->
  (exists s z, py_getitem (req_params r) "status" = Ok s /\ py_int s = Ok z /\ 0 <= z <= 4) /\
  (py_contains (req_params r) "component_status" = Ok false \/
   exists cs, py_getitem (req_params r) "component_status" = Ok cs /\
     (truthy cs = false \/ exists z, py_int cs = Ok z /\ 1 <= z <= 4)).
Proof.
  intros cfg api_url api_token kwargs tr r rs o H.
  assert (Hne : r :: rs <> []) by discriminate.
  unfold add_incident in H. run_steps H Hne.
  destruct (query_issued _ _ _ _ _ _ _ _ _ _ _ _ _ H) as (_ & _ & u & t & -> & _).
  simpl. rewrite (getitem_dict _ _ _ Ho2). split.
  - destruct a3. destruct (check_incident_ok _ Ho3) as (z & Hz & Hr).
    exists a2, z. auto.
  - destruct a4; [right|left; exact Ho4].
    destruct (py_getitem a1 "component_status") as [cs|e] eqn:Hcs; cbn in Ho5; [|discriminate].
    exists cs. split; [reflexivity|].
    destruct (truthy cs); [right|left; reflexivity].
    destruct a5. exact (check_component_ok _ Ho5).
Qed.

Lemma add_incident_sends_valid_statuses_witness :
  let p := PDict [("name", PStr "db"); ("message", PStr "down"); ("status", PInt 0);
                  ("visible", PInt 1); ("component_status", PInt 0)] in
  (exists s z, py_getitem p "status" = Ok s /\ py_int s = Ok z /\ 0 <= z <= 4) /\
  (py_contains p "component_status" = Ok false \/
   exists cs, py_getitem p "component_status" = Ok cs /\
     (truthy cs = false \/ exists z, py_int cs = Ok z /\ 1 <= z <= 4)).
Proof.
  apply (add_incident_sends_valid_statuses cfg_example PNone PNone
           [("name", PStr "db"); ("message", PStr "down"); ("status", PInt 0);
            ("component_status", PInt 0)] (fun _ => answer_204)
           {| req_url := "https://status.example.com/api/v1/incidents";
              req_method := "POST";
              req_params := PDict [("name", PStr "db"); ("message", PStr "down"); ("status", PInt 0);
                                   ("visible", PInt 1); ("component_status", PInt 0)];
              req_data := PNone;
              req_headers := [("X-Cachet-Token", PStr "peWcBiMOS9HrZG15")] |}
           [] (Ok (PBool true))).
  reflexivity.
Defined.

(** Shape of the requests the read operations send: a [GET] with an
    empty parameter dict, no body and no header. *)
Definition read_request (r : request) : Prop :=
  req_method r = "GET" /\ req_params r = PDict [] /\ req_data r = PNone /\
  req_headers r = [].

(** Shape of the requests the delete operations send: a [DELETE] with an
    empty parameter dict, no body and the resolved, truthy token as the
    only header. *)
Definition delete_request (cfg : config) (api_token : pyval) (r : request) : Prop :=
  req_method r = "DELETE" /\ req_params r = PDict [] /\ req_data r = PNone /\
  req_headers r = [("X-Cachet-Token", resolved_token cfg api_token)] /\
  truthy (resolved_token cfg api_token) = true.

Lemma read_query cfg function api_url api_token tr r rs o :
  run tr (_query cfg function api_url api_token false PNone "GET" None PNone) = (r :: rs, o) ->
  rs = [] /\ read_request r.
Proof.
  intros H. destruct (query_issued _ _ _ _ _ _ _ _ _ _ _ _ _ H) as (-> & _ & u & t & -> & _).
  split; [reflexivity|]. unfold read_request. simpl. auto.
Qed.

Lemma delete_query cfg function api_url api_token tr r rs o :
  run tr (_query cfg function api_url api_token true PNone "DELETE" None PNone) = (r :: rs, o) ->
  rs = [] /\ delete_request cfg api_token r.
Proof.
  intros H. destruct (query_issued _ _ _ _ _ _ _ _ _ _ _ _ _ H) as (-> & _ & u & t & -> & Ht).
  destruct (Ht eq_refl) as (-> & Htr).
  split; [reflexivity|]. unfold delete_request. simpl. auto.
Qed.

Ltac read_op H Hne :=
  repeat match type of H with
  | run _ (if ?b then _ else _) = _ => destruct b
  | run _ (ilift _ _) = _ => step_run H Hne; cbv beta in H
  end;
  exact (read_query _ _ _ _ _ _ _ _ H).

(** ** X6 *)

(** The read operations [ping], [get_components], [get_components_groups],
    [get_incidents], [get_metrics] and [get_metrics_points] send at most
    one request, and it is a [GET] with no parameter, body or header (no
    token is sent). *)
Theorem read_operations_send_plain_get :
  forall cfg metric_id id api_url api_token tr r rs o,
  (run tr (ping cfg api_url) = (r :: rs, o) -> rs = [] /\ read_request r) /\
  (run tr (get_components cfg id api_url api_token) = (r :: rs, o) ->
     rs = [] /\ read_request r) /\
  (run tr (get_components_groups cfg id api_url api_token) = (r :: rs, o) ->
     rs = [] /\ read_request r) /\
  (run tr (get_incidents cfg id api_url api_token) = (r :: rs, o) ->
     rs = [] /\ read_request r) /\
  (run tr (get_metrics cfg id api_url api_token) = (r :: rs, o) ->
     rs = [] /\ read_request r) /\
  (run tr (get_metrics_points cfg metric_id id api_url api_token) = (r :: rs, o) ->
     rs = [] /\ read_request r).
Proof.
  intros cfg metric_id id api_url api_token tr r rs o.
  assert (Hne : r :: rs <> []) by discriminate.
  refine (conj _ (conj _ (conj _ (conj _ (conj _ _))))); intros H;
    (unfold ping, get_components, get_components_groups, get_incidents,
           get_metrics, get_metrics_points in H; read_op H Hne).
Qed.

Lemma read_operations_send_plain_get_witness :
  read_request {| req_url := "https://status.example.com/api/v1/components/3";
                  req_method := "GET"; req_params := PDict []; req_data := PNone;
                  req_headers := [] |}.
Proof.
  apply (proj1 (proj2 (read_operations_send_plain_get cfg_example PNone (PInt 3) PNone PNone
           (fun _ => answer_204)
           {| req_url := "https://status.example.com/api/v1/components/3";
              req_method := "GET"; req_params := PDict []; req_data := PNone;
              req_headers := [] |} [] (Ok (PBool true))))).
  reflexivity.
Defined.

Ltac delete_op H Hne :=
  step_run H Hne; cbv beta in H; exact (delete_query _ _ _ _ _ _ _ _ H).

(** ** X7 *)

(** The delete operations [delete_component], [delete_component_group],
    [delete_incident] and [delete_metric] send at most one request: a
    [DELETE] with no parameter or body, whose only header is
    [X-Cachet-Token] set to the resolved token, which is truthy. *)
Theorem delete_operations_send_token :
  forall cfg id api_url api_token tr r rs o,
  (run tr (delete_component cfg id api_url api_token) = (r :: rs, o) ->
     rs = [] /\ delete_request cfg api_token r) /\
  (run tr (delete_component_group cfg id api_url api_token) = (r :: rs, o) ->
     rs = [] /\ delete_request cfg api_token r) /\
  (run tr (delete_incident cfg id api_url api_token) = (r :: rs, o) ->
     rs = [] /\ delete_request cfg api_token r) /\
  (run tr (delete_metric cfg id api_url api_token) = (r :: rs, o) ->
     rs = [] /\ delete_request cfg api_token r).
Proof.
  intros cfg id api_url api_token tr r rs o.
  assert (Hne : r :: rs <> []) by discriminate.
  refine (conj _ (conj _ (conj _ _))); intros H;
    (unfold delete_component, delete_component_group, delete_incident,
       delete_metric in H; delete_op H Hne).
Qed.

Lemma delete_operations_send_token_witness :
  delete_request cfg_example PNone
    {| req_url := "https://status.example.com/api/v1/incidents/3";
       req_method := "DELETE"; req_params := PDict []; req_data := PNone;
       req_headers := [("X-Cachet-Token", PStr "peWcBiMOS9HrZG15")] |}.
Proof.
  apply (proj1 (proj2 (proj2 (delete_operations_send_token cfg_example (PInt 3) PNone PNone
           (fun _ => answer_204)
           {| req_url := "https://status.example.com/api/v1/incidents/3";
              req_method := "DELETE"; req_params := PDict []; req_data := PNone;
              req_headers := [("X-Cachet-Token", PStr "peWcBiMOS9HrZG15")] |}
           [] (Ok (PBool true)))))).
  reflexivity.
Defined.

(** ** X8 *)

(** An authenticated [_query] with no token (neither a truthy override
    nor a truthy [cachet.api_token] or [cachet:api_token] setting) sends
    nothing and returns the [No Cachet api key found.] failure dict,
    whatever the URL: a missing URL yields that same dict. *)
Theorem query_auth_without_token :
  forall cfg function api_url api_token args method hd data tr,
  truthy api_token = false ->
  truthy (py_or (cfg "cachet.api_token") (cfg "cachet:api_token")) = false ->
  run tr (_query cfg function api_url api_token true args method hd data) =
  ([], Ok no_api_key).
Proof.
  intros cfg function api_url api_token args method hd data tr Ht Hc.
  unfold _query, with_setting.
  destruct (truthy api_url);
    [|destruct (truthy (py_or (cfg "cachet.api_url") (cfg "cachet:api_url"))); [|reflexivity]];
    rewrite Ht, Hc; reflexivity.
Qed.

Lemma query_auth_without_token_witness :
  truthy PNone = false /\
  truthy (py_or (cfg_empty "cachet.api_token") (cfg_empty "cachet:api_token")) = false /\
  run (fun _ => answer_204)
      (_query cfg_empty "components" (PStr "https://status.example.com") PNone true
              (PDict []) "POST" None PNone) = ([], Ok no_api_key).
Proof.
  split; [reflexivity|split; [reflexivity|]].
  apply query_auth_without_token; reflexivity.
Defined.

(** ** X9 *)

(** The headers of the request [_query] sends: the caller's dict (or
    [{}]); with [auth], an [X-Cachet-Token] already in it is kept as is,
    and otherwise the resolved token is added under that key.  Without
    [auth] the caller's headers go out unchanged. *)
Theorem query_request_headers :
  forall cfg function api_url api_token auth args method hd data tr r rs o,
  run tr (_query cfg function api_url api_token auth args method hd data) = (r :: rs, o) ->
  let h := match hd with Some h => h | None => [] end in
  (auth = false -> req_headers r = h) /\
  (auth = true -> dict_mem h "X-Cachet-Token" = true -> req_headers r = h) /\
  (auth = true -> dict_mem h "X-Cachet-Token" = false ->
     req_headers r = dict_set h "X-Cachet-Token" (resolved_token cfg api_token) /\
     dict_get (req_headers r) "X-Cachet-Token" = Some (resolved_token cfg api_token)).
Proof.
  intros cfg function api_url api_token auth args method hd data tr r rs o H h.
  destruct (query_issued _ _ _ _ _ _ _ _ _ _ _ _ _ H) as (_ & _ & u & t & -> & Ht).
  simpl. unfold query_headers. fold h.
  split; [intros ->; reflexivity|split].
  - intros -> Hm. rewrite Hm. reflexivity.
  - intros -> Hm. rewrite Hm. destruct (Ht eq_refl) as (-> & _).
    split; [reflexivity|]. rewrite dict_get_set. rewrite String.eqb_refl. reflexivity.
Qed.

Lemma query_request_headers_witness :
  req_headers {| req_url := "https://status.example.com/api/v1/components";
                 req_method := "POST"; req_params := PDict []; req_data := PNone;
                 req_headers := [("X-Cachet-Token", PStr "mine")] |} =
  [("X-Cachet-Token", PStr "mine")].
Proof.
  apply (proj1 (proj2 (query_request_headers cfg_example "components" PNone PNone true
           (PDict []) "POST" (Some [("X-Cachet-Token", PStr "mine")]) PNone
           (fun _ => answer_204)
           {| req_url := "https://status.example.com/api/v1/components";
              req_method := "POST"; req_params := PDict []; req_data := PNone;
              req_headers := [("X-Cachet-Token", PStr "mine")] |} [] (Ok (PBool true))
           eq_refl)) eq_refl eq_refl).
Defined.

(** ** X10 *)

(** Explicit settings take precedence over the configuration: with a
    truthy [api_url], and a truthy [api_token] when [auth] is set,
    [_query] behaves the same under any two configurations. *)
Theorem query_overrides_ignore_config :
  forall cfg cfg' function api_url api_token auth args method hd data,
  truthy api_url = true ->
  (auth = true -> truthy api_token = true) ->
  _query cfg function api_url api_token auth args method hd data =
  _query cfg' function api_url api_token auth args method hd data.
Proof.
  intros cfg cfg' function api_url api_token auth args method hd data Hu Ht.
  unfold _query, with_setting. rewrite Hu.
  destruct auth; [rewrite (Ht eq_refl)|]; reflexivity.
Qed.

Lemma query_overrides_ignore_config_witness :
  _query cfg_example "components" (PStr "https://other.example.org") (PStr "tok") true
         (PDict []) "POST" None PNone =
  _query cfg_empty "components" (PStr "https://other.example.org") (PStr "tok") true
         (PDict []) "POST" None PNone.
Proof.
  apply query_overrides_ignore_config; [reflexivity|intros _; reflexivity].
Defined.

(** ** X11 *)

(** [get_metrics_points] with a truthy point id always fails with
    [NameError] on [metric_ic], before any request, whatever the metric
    id and settings. *)
Theorem get_metrics_points_id_name_error :
  forall cfg metric_id id api_url api_token tr,
  truthy id = true ->
  run tr (get_metrics_points cfg metric_id id api_url api_token) =
  ([], Raise (NameError "name 'metric_ic' is not defined")).
Proof.
  intros cfg metric_id id api_url api_token tr Hid.
  unfold get_metrics_points. rewrite Hid. reflexivity.
Qed.

Lemma get_metrics_points_id_name_error_witness :
  run (fun _ => answer_204) (get_metrics_points cfg_example (PInt 1) (PInt 7) PNone PNone) =
  ([], Raise (NameError "name 'metric_ic' is not defined")).
Proof.
  apply get_metrics_points_id_name_error. reflexivity.
Defined.



(** ** X12 *)



(** ** X13 *)

(** [add_metric_point] sends exactly [{'value': v}] for the supplied
    [value]: any other keyword, a [timestamp] included, is dropped. *)
Theorem add_metric_point_sends_value_only :
  forall cfg metric_id api_url api_token kwargs tr r rs o v,
  dict_get kwargs "value" = Some v ->
  run tr (add_metric_point cfg metric_id api_url api_token kwargs) = (r :: rs, o) ->
  req_params r = PDict [("value", v)] /\ req_method r = "POST".
Proof.
  intros cfg metric_id api_url api_token kwargs tr r rs o v Hv H.
  assert (Hne : r :: rs <> []) by discriminate.
  unfold add_metric_point, call_build_args in H.
  destruct (kw_collision kwargs); [simpl in H; discriminate|].
  unfold _build_args in H. simpl in H. rewrite Hv in H. simpl in H.
  run_steps H Hne.
  destruct (query_issued _ _ _ _ _ _ _ _ _ _ _ _ _ H) as (_ & _ & u & t & -> & _).
  split; reflexivity.
Qed.

Lemma add_metric_point_sends_value_only_witness :
  dict_get [("value", PInt 5); ("timestamp", PInt 1500000000)] "value" = Some (PInt 5) /\
  req_params {| req_url := "https://status.example.com/api/v1/metrics/1/points";
                req_method := "POST"; req_params := PDict [("value", PInt 5)];
                req_data := PNone;
                req_headers := [("X-Cachet-Token", PStr "peWcBiMOS9HrZG15")] |} =
  PDict [("value", PInt 5)].
Proof.
  split; [reflexivity|].
  apply (proj1 (add_metric_point_sends_value_only cfg_example (PInt 1) PNone PNone
           [("value", PInt 5); ("timestamp", PInt 1500000000)] (fun _ => answer_204)
           {| req_url := "https://status.example.com/api/v1/metrics/1/points";
              req_method := "POST"; req_params := PDict [("value", PInt 5)];
              req_data := PNone;
              req_headers := [("X-Cachet-Token", PStr "peWcBiMOS9HrZG15")] |}
           [] (Ok (PBool true)) (PInt 5) eq_refl eq_refl)).
Defined.

(** The builder on a schema without mandatory field always succeeds, and
    each value it stores comes from one iteration of its loop. *)
Lemma build_values obj method schema kwargs :
  schema_of obj method = Some schema ->
  (forall k c, In (k, c) schema -> mandatory c = false) ->
  exists res, _build_args obj method kwargs = Ok (build_success res) /\
    (forall k v, dict_get res k = Some v ->
       exists c, In (k, c) schema /\ step_value kwargs k c = Some v).
Proof.
  intros Hs Hopt.
  destruct (build_loop_ok kwargs schema []) as (res & Heq & _ & Hv).
  { intros k c Hin (Hm & _). rewrite (Hopt k c Hin) in Hm. discriminate. }
  exists res. rewrite (build_args_schema _ _ _ _ Hs), Heq. split; [reflexivity|].
  intros k v Hg. destruct (Hv k v Hg) as [H|H]; [discriminate|exact H].
Qed.

Ltac update_op H Hne Hb :=
  unfold call_build_args in H;
  destruct (kw_collision _); [simpl in H; discriminate|];
  rewrite Hb in H; simpl in H; run_steps H Hne;
  destruct (query_issued _ _ _ _ _ _ _ _ _ _ _ _ _ H) as (_ & _ & ? & ? & -> & _).

(** ** X14 *)

(** The update operations send only what the caller supplied: every
    field in the argument set of [update_component] and
    [update_component_group] carries the caller's value, and so does every
    field sent by [update_incident] except [visible], which is [1] when the
    caller gave none. *)
Theorem update_operations_send_supplied_fields :
  forall cfg id api_url api_token kwargs tr r rs o,
  (run tr (update_component cfg id api_url api_token kwargs) = (r :: rs, o) ->
   exists args, req_params r = PDict args /\
     forall k v, dict_get args k = Some v -> dict_get kwargs k = Some v) /\
  (run tr (update_component_group cfg id api_url api_token kwargs) = (r :: rs, o) ->
   exists args, req_params r = PDict args /\
     forall k v, dict_get args k = Some v -> dict_get kwargs k = Some v) /\
  (run tr (update_incident cfg id api_url api_token kwargs) = (r :: rs, o) ->
   exists args, req_params r = PDict args /\
     forall k v, dict_get args k = Some v ->
       dict_get kwargs k = Some v \/
       (k = "visible" /\ v = PInt 1 /\ dict_get kwargs "visible" = None)).
Proof.
  intros cfg id api_url api_token kwargs tr r rs o.
  assert (Hne : r :: rs <> []) by discriminate.
  refine (conj _ (conj _ _)); intros H.
  - unfold update_component in H.
    destruct (build_values "components" "update" _ kwargs eq_refl) as (res & Hb & Hv);
      [schema_fields|].
    update_op H Hne Hb.
    exists res. split; [reflexivity|]. intros k v Hg.
    destruct (Hv k v Hg) as (c & Hin & Hs). unfold step_value in Hs.
    simpl in Hin; repeat destruct Hin as [Hin|Hin]; try contradiction;
      inversion Hin; subst; simpl in Hs; destruct (dict_get kwargs _); congruence.
  - unfold update_component_group in H.
    destruct (build_values "components.groups" "update" _ kwargs eq_refl) as (res & Hb & Hv);
      [schema_fields|].
    update_op H Hne Hb.
    exists res. split; [reflexivity|]. intros k v Hg.
    destruct (Hv k v Hg) as (c & Hin & Hs). unfold step_value in Hs.
    simpl in Hin; repeat destruct Hin as [Hin|Hin]; try contradiction;
      inversion Hin; subst; simpl in Hs; destruct (dict_get kwargs _); congruence.
  - unfold update_incident in H.
    destruct (build_values "incidents" "update" _ kwargs eq_refl) as (res & Hb & Hv);
      [schema_fields|].
    update_op H Hne Hb.
    exists res. split; [reflexivity|]. intros k v Hg.
    destruct (Hv k v Hg) as (c & Hin & Hs). unfold step_value in Hs.
    simpl in Hin; repeat destruct Hin as [Hin|Hin]; try contradiction;
      inversion Hin; subst; simpl in Hs; destruct (dict_get kwargs _) eqn:Hk;
      try (left; congruence); try discriminate.
    right. inversion Hs. auto.
Qed.

Lemma update_operations_send_supplied_fields_witness :
  exists args, PDict [("status", PInt 2); ("visible", PInt 1)] = PDict args /\
    forall k v, dict_get args k = Some v ->
      dict_get [("status", PInt 2)] k = Some v \/
      (k = "visible" /\ v = PInt 1 /\ dict_get [("status", PInt 2)] "visible" = None).
Proof.
  apply (proj2 (proj2 (update_operations_send_supplied_fields cfg_example (PInt 3) PNone PNone
           [("status", PInt 2)] (fun _ => answer_204)
           {| req_url := "https://status.example.com/api/v1/incidents/3";
              req_method := "PUT";
              req_params := PDict [("status", PInt 2); ("visible", PInt 1)];
              req_data := PNone;
              req_headers := [("X-Cachet-Token", PStr "peWcBiMOS9HrZG15")] |}
           [] (Ok (PBool true))))).
  reflexivity.
Defined.

(** ** X15 *)

(** [_build_args] raises exactly on a pair outside the registry, with a
    message naming the unknown resource, or else the unknown method; on a
    registered pair it returns a dict whose [res] is a boolean, with the
    argument set under [data] when [res] is [True]. *)
Theorem build_args_registry :
  forall obj method kwargs,
  ((exists e, _build_args obj method kwargs = Raise e) <-> schema_of obj method = None) /\
  (dict_get CACHET_PARAMS_DEFINITION obj = None ->
     _build_args obj method kwargs =
     Raise (Exception (obj ++ " not in CACHET_PARAMS_DEFINITION"))) /\
  (forall v, _build_args obj method kwargs = Ok v ->
     (exists k, v = build_failure k) \/ (exists args, v = build_success args)).
Proof.
  intros obj method kwargs.
  assert (Hloop : forall items args,
            (exists k, build_loop items kwargs args = build_failure k) \/
            (exists res, build_loop items kwargs args = build_success res)).
  { induction items as [|[k c] rest IH]; intros args; simpl; [right; eauto|].
    destruct (mandatory c), (dict_get kwargs k), (default c) as [d|];
      try destruct (truthy d); auto. left; eauto. }
  split; [|split].
  - unfold _build_args, schema_of.
    destruct (dict_get CACHET_PARAMS_DEFINITION obj) as [ops|];
      [destruct (dict_get ops method)|]; split; intros H; eauto; try discriminate.
    destruct H as (e & He). discriminate.
  - intros Hn. unfold _build_args. rewrite Hn. reflexivity.
  - intros v. unfold _build_args.
    destruct (dict_get CACHET_PARAMS_DEFINITION obj) as [ops|]; [|discriminate].
    destruct (dict_get ops method) as [schema|]; [|discriminate].
    intros Hv. inversion Hv; subst.
    destruct (Hloop schema []) as [(k & ->)|(res & ->)]; eauto.
Qed.

Lemma build_args_registry_witness :
  _build_args "users" "add" [("name", PStr "bob")] =
  Raise (Exception ("users" ++ " not in CACHET_PARAMS_DEFINITION")).
Proof.
  apply (proj1 (proj2 (build_args_registry "users" "add" [("name", PStr "bob")]))).
  reflexivity.
Defined.

(** ** X16 *)

(** Errors reported by the API: a reply with status 200 whose decoded
    body has an [error] key, or a reply with another status than 200 or
    204 that has a top-level [error] key, gives
    [{message: error, res: False}]. *)
Theorem query_response_error :
  forall result,
  (forall body e, py_get result "status" PNone = Ok (PInt 200) ->
     py_getitem result "dict" = Ok (PDict body) -> dict_get body "error" = Some e ->
     _query_response result = Ok (ret_dict e (PBool false))) /\
  (forall status d e, py_get result "status" PNone = Ok status ->
     py_eq_int status 200 = false -> py_eq_int status 204 = false ->
     result = PDict d -> dict_get d "error" = Some e ->
     _query_response result = Ok (ret_dict e (PBool false))).
Proof.
  intros result. split.
  - intros body e Hs Hd He. unfold _query_response. rewrite Hs. simpl.
    rewrite Hd. simpl. unfold dict_mem. rewrite He. reflexivity.
  - intros status d e Hs H200 H204 -> He. unfold _query_response. rewrite Hs. simpl.
    rewrite H200, H204. unfold dict_mem. rewrite He. reflexivity.
Qed.

Lemma query_response_error_witness :
  _query_response (PDict [("status", PInt 401); ("error", PStr "Unauthorized")]) =
  Ok (ret_dict (PStr "Unauthorized") (PBool false)).
Proof.
  apply (proj2 (query_response_error (PDict [("status", PInt 401); ("error", PStr "Unauthorized")]))
           (PInt 401) [("status", PInt 401); ("error", PStr "Unauthorized")]);
    reflexivity.
Defined.

(** ** X17 *)

(** An id given as a string is refused by the ['%d'] formatting: the
    delete operations, and the read operations with a non-empty string id,
    raise [TypeError] and send nothing. *)
Theorem string_id_type_error :
  forall cfg s api_url api_token tr,
  let err := ([] : list request, Raise (A := pyval) (TypeError "%d format: a number is required")) in
  run tr (delete_component cfg (PStr s) api_url api_token) = err /\
  run tr (delete_component_group cfg (PStr s) api_url api_token) = err /\
  run tr (delete_incident cfg (PStr s) api_url api_token) = err /\
  run tr (delete_metric cfg (PStr s) api_url api_token) = err /\
  (s <> "" ->
   run tr (get_components cfg (PStr s) api_url api_token) = err /\
   run tr (get_components_groups cfg (PStr s) api_url api_token) = err /\
   run tr (get_incidents cfg (PStr s) api_url api_token) = err /\
   run tr (get_metrics cfg (PStr s) api_url api_token) = err).
Proof.
  intros cfg s api_url api_token tr err. subst err.
  split; [reflexivity|split; [reflexivity|split; [reflexivity|split; [reflexivity|]]]].
  intros Hs; assert (Ht : truthy (PStr s) = true)
         by (destruct s; [contradiction|reflexivity]).
  unfold get_components, get_components_groups, get_incidents, get_metrics;
    rewrite Ht. repeat split.
Qed.

Lemma string_id_type_error_witness :
  run (fun _ => answer_204) (get_incidents cfg_example (PStr "3") PNone PNone) =
  ([], Raise (TypeError "%d format: a number is required")).
Proof.
  apply (proj1 (proj2 (proj2 (proj2 (proj2
           (string_id_type_error cfg_example "3" PNone PNone (fun _ => answer_204)))))
           ltac:(discriminate))).
Defined.

(** When [_query] returns before any request, it returns the missing
    settings dict or raises. *)
Lemma query_ret cfg function api_url api_token auth args method hd data o :
  _query cfg function api_url api_token auth args method hd data = Ret o ->
  o = Ok no_api_key \/ exists e, o = Raise e.
Proof.
  unfold _query, with_setting.
  destruct (truthy api_url);
    [|destruct (truthy (py_or (cfg "cachet.api_url") (cfg "cachet:api_url")))];
  [..|intros H; inversion H; auto];
  (destruct auth;
   [destruct (truthy api_token);
    [|destruct (truthy (py_or (cfg "cachet.api_token") (cfg "cachet:api_token")));
      [|intros H; inversion H; auto]]|]);
  split_query_steps; simpl; intros H; inversion H; eauto.
Qed.

(** A failure dict built from a reply carries its [error] value. *)
Lemma query_response_false result m :
  _query_response result = Ok (ret_dict m (PBool false)) ->
  py_getitem result "error" = Ok m \/
  exists body, py_getitem result "dict" = Ok body /\ py_getitem body "error" = Ok m.
Proof.
  unfold _query_response.
  destruct (py_get result "status" PNone) as [st|]; simpl; [|discriminate].
  destruct (py_eq_int st 200).
  - destruct (py_getitem result "dict") as [b|] eqn:Hb; simpl; [|discriminate].
    destruct (py_contains b "error") as [[|]|]; simpl; try discriminate.
    + destruct (py_getitem b "error") eqn:He; simpl; intros H; inversion H; subst.
      right. eauto.
    + destruct (py_get b "data" PNone); simpl; intros H; inversion H.
  - destruct (py_eq_int st 204); [discriminate|].
    destruct (py_contains result "error") as [[|]|]; simpl; try discriminate.
    destruct (py_getitem result "error") eqn:He; simpl; intros H; inversion H; subst.
    left. reflexivity.
Qed.

(** ** X18 *)

(** [_query] reports a failure ([res] False) only in two cases: the
    missing-settings dict, before any request, or an [error] value the
    API sent back, at the top level of the reply or in its decoded body. *)
Theorem query_failure_sources :
  forall cfg function api_url api_token auth args method hd data tr rs m,
  run tr (_query cfg function api_url api_token auth args method hd data) =
  (rs, Ok (ret_dict m (PBool false))) ->
  (rs = [] /\ m = PStr "No Cachet api key found.") \/
  (exists r, rs = [r] /\
     (py_getitem (tr r) "error" = Ok m \/
      exists body, py_getitem (tr r) "dict" = Ok body /\ py_getitem body "error" = Ok m)).
Proof.
  intros cfg function api_url api_token auth args method hd data tr rs m H.
  destruct (query_shape cfg function api_url api_token auth args method hd data)
    as [(o & Heq)|(u & t & Heq & _)]; rewrite Heq in H; simpl in H; inversion H; subst.
  - left. split; [reflexivity|].
    destruct (query_ret _ _ _ _ _ _ _ _ _ _ Heq) as [Ho|(e & Ho)]; [|discriminate].
    inversion Ho. reflexivity.
  - right. eexists. split; [reflexivity|]. apply query_response_false. assumption.
Qed.

Lemma query_failure_sources_witness :
  run (fun _ => PDict [("status", PInt 401); ("error", PStr "Unauthorized")])
      (_query cfg_example "components" PNone PNone true (PDict []) "POST" None PNone) =
  ([{| req_url := "https://status.example.com/api/v1/components";
       req_method := "POST"; req_params := PDict []; req_data := PNone;
       req_headers := [("X-Cachet-Token", PStr "peWcBiMOS9HrZG15")] |}],
   Ok (ret_dict (PStr "Unauthorized") (PBool false))) /\
  ((([] : list request) = [] /\ PStr "Unauthorized" = PStr "No Cachet api key found.") \/
   exists r, [{| req_url := "https://status.example.com/api/v1/components";
                req_method := "POST"; req_params := PDict []; req_data := PNone;
                req_headers := [("X-Cachet-Token", PStr "peWcBiMOS9HrZG15")] |}] = [r] /\
     (py_getitem (PDict [("status", PInt 401); ("error", PStr "Unauthorized")]) "error" =
        Ok (PStr "Unauthorized") \/
      exists body, py_getitem (PDict [("status", PInt 401); ("error", PStr "Unauthorized")])
                     "dict" = Ok body /\ py_getitem body "error" = Ok (PStr "Unauthorized"))).
Proof.
  split; [reflexivity|].
  destruct (query_failure_sources cfg_example "components" PNone PNone true (PDict []) "POST"
              None PNone (fun _ => PDict [("status", PInt 401); ("error", PStr "Unauthorized")])
              [{| req_url := "https://status.example.com/api/v1/components";
                  req_method := "POST"; req_params := PDict []; req_data := PNone;
                  req_headers := [("X-Cachet-Token", PStr "peWcBiMOS9HrZG15")] |}]
              (PStr "Unauthorized") eq_refl) as [(Hr & _)|(r & Hr & Hm)];
    [discriminate|].
  right. exists r. split; [exact Hr|exact Hm].
Defined.

Lemma str_mem_in s l : str_mem s l = true -> In s l.
Proof.
  unfold str_mem. intros H. apply existsb_exists in H.
  destruct H as (x & Hin & Hx). apply String.eqb_eq in Hx. subst x. exact Hin.
Qed.

Lemma relative_netloc sc : str_mem sc uses_relative = true -> str_mem sc uses_netloc = true.
Proof.
  intros H. apply str_mem_in in H. simpl in H.
  repeat destruct H as [<-|H]; try contradiction; reflexivity.
Qed.

Lemma parse_api_root sc :
  str_mem sc uses_relative = true ->
  urlparse "/api/v1/" sc true =
  Ok {| pr_scheme := sc; pr_netloc := ""; pr_path := "/api/v1/"; pr_params := "";
        pr_query := ""; pr_fragment := "" |}.
Proof.
  intros H. apply str_mem_in in H. simpl in H.
  repeat destruct H as [<-|H]; try contradiction; reflexivity.
Qed.

Lemma join_api_root s b :
  s <> "" -> urlparse s "" true = Ok b -> pr_scheme b <> "" ->
  str_mem (pr_scheme b) uses_relative = true -> pr_netloc b <> "" ->
  urljoin s "/api/v1/" true = Ok (pr_scheme b ++ "://" ++ pr_netloc b ++ "/api/v1/").
Proof.
  intros Hs Hb Hsc Hr Hn.
  unfold urljoin. apply String.eqb_neq in Hs. rewrite Hs.
  change (String.eqb "/api/v1/" "") with false. cbn iota.
  rewrite Hb. cbn [obind]. rewrite (parse_api_root _ Hr). cbn [obind pr_scheme pr_netloc
    pr_path pr_params pr_query pr_fragment].
  rewrite String.eqb_refl, Hr, (relative_netloc _ Hr). cbn -[urlunparse].
  unfold urlunparse, urlunsplit. apply String.eqb_neq in Hn, Hsc.
  rewrite Hn, Hsc. reflexivity.
Qed.

(** ** X19 *)

(** The API root is [urljoin(api_url, '/api/v1/')], with an absolute
    path: for an [api_url] that [urlparse] reads with a host and a scheme
    of [uses_relative], any path, query or fragment it carries is dropped
    and the root is [scheme://host/api/v1/]; and every request of [_query]
    given that URL goes to [urljoin('scheme://host/api/v1/', function)]. *)
Theorem query_url_drops_base_path :
  forall s b,
  s <> "" -> urlparse s "" true = Ok b -> pr_scheme b <> "" ->
  str_mem (pr_scheme b) uses_relative = true -> pr_netloc b <> "" ->
  urljoin s "/api/v1/" true = Ok (pr_scheme b ++ "://" ++ pr_netloc b ++ "/api/v1/") /\
  (forall cfg function api_token auth args method hd data tr r rs o,
   run tr (_query cfg function (PStr s) api_token auth args method hd data) = (r :: rs, o) ->
   urljoin (pr_scheme b ++ "://" ++ pr_netloc b ++ "/api/v1/") function false =
   Ok (req_url r)).
Proof.
  intros s b Hs Hb Hsc Hr Hn.
  pose proof (join_api_root s b Hs Hb Hsc Hr Hn) as Hj.
  split; [exact Hj|].
  intros cfg function api_token auth args method hd data tr r rs o H.
  assert (Ht : truthy (PStr s) = true).
  { destruct s; [contradiction|reflexivity]. }
  assert (Hne : r :: rs <> []) by discriminate.
  unfold _query, with_setting in H. rewrite Ht in H.
  destruct auth;
    [destruct (truthy api_token);
     [|destruct (truthy (py_or (cfg "cachet.api_token") (cfg "cachet:api_token")))]|];
    cbn [ilift] in H; try (cbn in H; discriminate); rewrite Hj in H; cbn [ilift] in H;
    destruct (urljoin _ function false) as [u|e];
    cbn [ilift run] in H; inversion H; subst; reflexivity.
Qed.

Lemma query_url_drops_base_path_witness :
  "https://status.example.com/cachet/?x=1" <> "" /\
  urlparse "https://status.example.com/cachet/?x=1" "" true =
    Ok {| pr_scheme := "https"; pr_netloc := "status.example.com"; pr_path := "/cachet/";
          pr_params := ""; pr_query := "x=1"; pr_fragment := "" |} /\
  urljoin "https://status.example.com/cachet/?x=1" "/api/v1/" true =
    Ok ("https" ++ "://" ++ "status.example.com" ++ "/api/v1/").
Proof.
  split; [discriminate|]. split; [reflexivity|].
  apply (proj1 (query_url_drops_base_path "https://status.example.com/cachet/?x=1"
           {| pr_scheme := "https"; pr_netloc := "status.example.com"; pr_path := "/cachet/";
              pr_params := ""; pr_query := "x=1"; pr_fragment := "" |}
           ltac:(discriminate) eq_refl ltac:(discriminate) eq_refl ltac:(discriminate))).
Defined.
